(** * Payment-instruction service: parser and settlement evaluator

    Shallow embedding of
    - [src/services/handle-payment/handle-instruction.js]
      ([mapValidationErrors], the file-local [parseInstruction] and
      [handlePaymentInstruction]);
    - [src/unnamed/part_001] (the ordering-aware [parseInstruction]);
    - [src/helpers/parse-instruction.js] (the [parseInstruction] with the
      ACCOUNT-keyword check);
    - [src/unnamed/part_000] (the [/payment-instructions] route).

    Modelling conventions.
    - JS strings are Rocq [string]s whose characters are 7-bit ASCII code
      units; [toUpperCase] maps [a-z] and \s is the ASCII white space.
    - JS numbers are [jsnum]: NaN, the two infinities or an exact rational;
      rounding to binary64 is not modelled.
    - A thrown exception is a value of [js_error]; functions that may throw
      return a sum. *)

From Stdlib Require Import String Ascii List ZArith QArith Lia Bool.
Import ListNotations.
Open Scope string_scope.
Open Scope Z_scope.

(* ------------------------------------------------------------------ *)
(** ** Characters and strings *)

Definition is_js_space (c : ascii) : bool :=
  existsb (Nat.eqb (nat_of_ascii c)) [9; 10; 11; 12; 13; 32]%nat.

Definition is_lower (c : ascii) : bool :=
  let n := nat_of_ascii c in (Nat.leb 97 n && Nat.leb n 122)%nat.

Definition char_toUpperCase (c : ascii) : ascii :=
  if is_lower c then ascii_of_nat (nat_of_ascii c - 32)%nat else c.

(** [String.prototype.toUpperCase] *)
Fixpoint toUpperCase (s : string) : string :=
  match s with
  | EmptyString => EmptyString
  | String c s' => String (char_toUpperCase c) (toUpperCase s')
  end.

(** Split on runs of white space, dropping empty pieces; [cur] is the
    (reversed) token being read. *)
Fixpoint tokens_aux (s : string) (cur : list ascii) : list string :=
  match s with
  | EmptyString =>
      match cur with [] => [] | _ => [string_of_list_ascii (rev cur)] end
  | String c s' =>
      if is_js_space c then
        match cur with
        | [] => tokens_aux s' []
        | _ => string_of_list_ascii (rev cur) :: tokens_aux s' []
        end
      else tokens_aux s' (c :: cur)
  end.

(** [instruction.trim().split(/\s+/)]: the trimmed string has no white
    space at either end, so the pieces are the maximal non-blank runs;
    the empty string splits to [[""]]. *)
Definition words (instruction : string) : list string :=
  match tokens_aux instruction [] with
  | [] => [""]
  | l => l
  end.

Definition upperWords (instruction : string) : list string :=
  map toUpperCase (words instruction).

(** A string holding no white space character. *)
Definition blank_free (s : string) : bool :=
  forallb (fun c => negb (is_js_space c)) (list_ascii_of_string s).

(** [str.split('-')] *)
Fixpoint split_dash_aux (s : string) (cur : list ascii) : list string :=
  match s with
  | EmptyString => [string_of_list_ascii (rev cur)]
  | String c s' =>
      if Ascii.eqb c "-"%char
      then string_of_list_ascii (rev cur) :: split_dash_aux s' []
      else split_dash_aux s' (c :: cur)
  end.

Definition split_dash (s : string) : list string := split_dash_aux s [].

(** [Array.prototype.indexOf] on a list of strings: the first index, or -1. *)
Fixpoint indexOf_from (l : list string) (x : string) (i : Z) : Z :=
  match l with
  | [] => (-1)%Z
  | y :: l' => if String.eqb y x then i else indexOf_from l' x (i + 1)
  end.

Definition indexOf (l : list string) (x : string) : Z := indexOf_from l x 0.

(** [arr[i]] for an integer index: [None] is [undefined]. *)
Definition at_idx (l : list string) (i : Z) : option string :=
  if (i <? 0)%Z then None else nth_error l (Z.to_nat i).

(** JS truthiness of a string-or-undefined. *)
Definition truthy_str (o : option string) : bool :=
  match o with Some s => negb (String.eqb s "") | None => false end.

(* ------------------------------------------------------------------ *)
(** ** Numbers *)

Inductive jsnum : Type :=
| NaN
| PosInf
| NegInf
| Fin (q : Q).

Definition digit_val (base : Z) (c : ascii) : option Z :=
  let n := Z.of_nat (nat_of_ascii c) in
  let v :=
    if ((48 <=? n) && (n <=? 57))%Z then n - 48
    else if ((97 <=? n) && (n <=? 122))%Z then n - 87
    else if ((65 <=? n) && (n <=? 90))%Z then n - 55
    else 99 in
  if (v <? base)%Z then Some v else None.

(** Digits of [base], at least one, read as an integer. *)
Fixpoint digits_aux (base : Z) (l : list ascii) (acc : Z) : option Z :=
  match l with
  | [] => Some acc
  | c :: l' =>
      match digit_val base c with
      | Some v => digits_aux base l' (acc * base + v)
      | None => None
      end
  end.

Definition digits (base : Z) (l : list ascii) : option Z :=
  match l with [] => None | _ => digits_aux base l 0 end.

(** Split a list of characters at the first occurrence of a character
    satisfying [p]: prefix, and the rest after that character if any. *)
Fixpoint break_at (p : ascii -> bool) (l : list ascii)
  : list ascii * option (list ascii) :=
  match l with
  | [] => ([], None)
  | c :: l' =>
      if p c then ([], Some l')
      else let '(a, b) := break_at p l' in (c :: a, b)
  end.

Definition is_exp_mark (c : ascii) : bool :=
  Ascii.eqb c "e"%char || Ascii.eqb c "E"%char.

Definition is_dot (c : ascii) : bool := Ascii.eqb c "."%char.

(** Optional decimal digits (possibly none). *)
Definition opt_digits (l : list ascii) : option Z :=
  match l with [] => Some 0%Z | _ => digits 10 l end.

(** m * 10^e as an exact rational. *)
Definition scale10 (m e : Z) : Q :=
  if (0 <=? e)%Z then inject_Z (m * 10 ^ e) else m # Z.to_pos (10 ^ (- e)).

(** StrUnsignedDecimalLiteral (without Infinity): digits, optional
    fraction, optional exponent, at least one digit in the mantissa. *)
Definition unsigned_decimal (l : list ascii) : option Q :=
  let '(mant, ex) := break_at is_exp_mark l in
  let e :=
    match ex with
    | None => Some 0%Z
    | Some ("+"%char :: ds) => digits 10 ds
    | Some ("-"%char :: ds) => option_map Z.opp (digits 10 ds)
    | Some ds => digits 10 ds
    end in
  let '(ip, fp) := break_at is_dot mant in
  let fl := match fp with Some f => f | None => [] end in
  match ip, fl with
  | [], [] => None
  | _, _ =>
      match opt_digits ip, opt_digits fl, e with
      | Some i, Some f, Some e' =>
          let k := Z.of_nat (length fl) in
          Some (scale10 (i * 10 ^ k + f) (e' - k))
      | _, _, _ => None
      end
  end.

Definition infinity_chars : list ascii := list_ascii_of_string "Infinity".

Definition list_ascii_eqb (a b : list ascii) : bool :=
  String.eqb (string_of_list_ascii a) (string_of_list_ascii b).

Definition signed_decimal (neg : bool) (l : list ascii) : jsnum :=
  if list_ascii_eqb l infinity_chars then (if neg then NegInf else PosInf)
  else match unsigned_decimal l with
       | Some q => Fin (if neg then Qopp q else q)
       | None => NaN
       end.

Fixpoint drop_spaces (l : list ascii) : list ascii :=
  match l with
  | c :: l' => if is_js_space c then drop_spaces l' else l
  | [] => []
  end.

Definition trim_chars (l : list ascii) : list ascii :=
  rev (drop_spaces (rev (drop_spaces l))).

(** StringToNumber. *)
Definition string_to_number (s : string) : jsnum :=
  match trim_chars (list_ascii_of_string s) with
  | [] => Fin 0%Q
  | "0"%char :: b :: ds =>
      if Ascii.eqb b "x"%char || Ascii.eqb b "X"%char then
        match digits 16 ds with Some v => Fin (inject_Z v) | None => NaN end
      else if Ascii.eqb b "o"%char || Ascii.eqb b "O"%char then
        match digits 8 ds with Some v => Fin (inject_Z v) | None => NaN end
      else if Ascii.eqb b "b"%char || Ascii.eqb b "B"%char then
        match digits 2 ds with Some v => Fin (inject_Z v) | None => NaN end
      else signed_decimal false ("0"%char :: b :: ds)
  | "+"%char :: l => signed_decimal false l
  | "-"%char :: l => signed_decimal true l
  | l => signed_decimal false l
  end.

(** [Number(x)] for a string or [undefined]. *)
Definition Number (x : option string) : jsnum :=
  match x with Some s => string_to_number s | None => NaN end.

Definition Q_is_integer (q : Q) : bool :=
  (Z.rem (Qnum q) (Zpos (Qden q)) =? 0)%Z.

(** [Number.isInteger] *)
Definition isInteger (x : jsnum) : bool :=
  match x with Fin q => Q_is_integer q | _ => false end.

(** [a < b] on finite numbers. *)
Definition Q_ltb (a b : Q) : bool := negb (Qle_bool b a).

Definition Q_trunc (q : Q) : Z := Z.quot (Qnum q) (Zpos (Qden q)).

Definition Q_floor (q : Q) : Z := Z.div (Qnum q) (Zpos (Qden q)).

(** [x - k] on a JS number ([m - 1] in the date check). *)
Definition js_sub (x : jsnum) (k : Q) : jsnum :=
  match x with Fin q => Fin (q - k) | _ => x end.

(* ------------------------------------------------------------------ *)
(** ** UTC calendar arithmetic ([Date.UTC] and the [getUTC*] getters) *)

Definition msPerDay : Z := 86400000.

(** Day number (days since 1970-01-01) of the proleptic Gregorian date
    [y]-[m]-[d], [1 <= m <= 12]. *)
Definition days_from_civil (y m d : Z) : Z :=
  let y' := if m <=? 2 then y - 1 else y in
  let era := y' / 400 in
  let yoe := y' - era * 400 in
  let doy := (153 * (if m >? 2 then m - 3 else m + 9) + 2) / 5 + d - 1 in
  let doe := yoe * 365 + yoe / 4 - yoe / 100 + doy in
  era * 146097 + doe - 719468.

(** Inverse: year, month (1..12) and day of a day number. *)
Definition civil_from_days (z : Z) : Z * Z * Z :=
  let z' := z + 719468 in
  let era := z' / 146097 in
  let doe := z' - era * 146097 in
  let yoe := (doe - doe / 1460 + doe / 36524 - doe / 146096) / 365 in
  let y := yoe + era * 400 in
  let doy := doe - (365 * yoe + yoe / 4 - yoe / 100) in
  let mp := (5 * doy + 2) / 153 in
  let d := doy - (153 * mp + 2) / 5 + 1 in
  let m := if mp <? 10 then mp + 3 else mp - 9 in
  (if m <=? 2 then y + 1 else y, m, d).

(** MakeDay(year, month, date): [None] is NaN. *)
Definition MakeDay (year month date : jsnum) : option Z :=
  match year, month, date with
  | Fin y, Fin m, Fin dt =>
      let y' := Q_trunc y in
      let m' := Q_trunc m in
      let dt' := Q_trunc dt in
      let ym := y' + m' / 12 in
      let mn := m' mod 12 in
      Some (days_from_civil ym (mn + 1) 1 + dt' - 1)
  | _, _, _ => None
  end.

(** [Date.UTC(year, month, date)], a time value in ms ([None] is NaN):
    years 0..99 are read as 1900..1999, then MakeDay, MakeDate, TimeClip. *)
Definition Date_UTC (year month date : jsnum) : option Z :=
  let yr :=
    match year with
    | Fin q =>
        let yi := Q_trunc q in
        if (0 <=? yi) && (yi <=? 99) then Fin (inject_Z (1900 + yi)) else year
    | _ => year
    end in
  match MakeDay yr month date with
  | None => None
  | Some day =>
      let tv := day * msPerDay in
      if Z.abs tv >? 8640000000000000 then None else Some tv
  end.

Definition getUTCFullYear (t : option Z) : option Z :=
  option_map (fun tv => let '(y, _, _) := civil_from_days (tv / msPerDay) in y) t.

Definition getUTCMonth (t : option Z) : option Z :=
  option_map (fun tv => let '(_, m, _) := civil_from_days (tv / msPerDay) in m - 1) t.

Definition getUTCDate (t : option Z) : option Z :=
  option_map (fun tv => let '(_, _, d) := civil_from_days (tv / msPerDay) in d) t.

(** [a !== b] between a getter result ([None] is NaN) and a number. *)
Definition num_neq (a : option Z) (b : jsnum) : bool :=
  match a, b with
  | Some x, Fin q => negb (Qeq_bool (inject_Z x) q)
  | _, _ => true
  end.

(** The rejection condition of the ON-date check:
    [const [y, m, d] = date.split('-').map(Number);
     const utcDate = new Date(Date.UTC(y, m - 1, d));
     getUTCFullYear() !== y || getUTCMonth() + 1 !== m || getUTCDate() !== d].
    A missing part is [undefined], which behaves as NaN throughout. *)
Definition date_rejected (date : string) : bool :=
  let parts := split_dash date in
  let y := Number (nth_error parts 0) in
  let m := Number (nth_error parts 1) in
  let d := Number (nth_error parts 2) in
  let utcDate := Date_UTC y (js_sub m 1) d in
  num_neq (getUTCFullYear utcDate) y
  || num_neq (option_map (fun k => k + 1) (getUTCMonth utcDate)) m
  || num_neq (getUTCDate utcDate) d.

(* ------------------------------------------------------------------ *)
(** ** Messages, status codes and errors *)

(** The keys of [PaymentMessages] used by the code (the module itself,
    [messages/payment], only provides their texts). *)
Module PaymentMessages.
Inductive t : Type :=
| MALFORMED_INSTRUCTION
| POSITIVE_INT_ERROR
| UNSUPPORTED_CURRENCY
| INVALID_INSTRUCTION_FORMAT
| SAME_ACCOUNT_ERROR
| INVALID_DATE_FORMAT
| TRANSACTION_PENDING
| ACCOUNT_NOT_FOUND
| CURRENCY_MISMATCH
| INSUFFICIENT_FUNDS
| TRANSACTION_SUCCESSFUL.
End PaymentMessages.

(** The keys of [TRANSACTION_STATUS_CODE_MAPPING] used by the code. *)
Module TRANSACTION_STATUS_CODE_MAPPING.
Inductive t : Type :=
| MALFORMED_INSTRUCTION
| POSITIVE_INT_ERROR
| UNSUPPORTED_CURRENCY
| SAME_ACCOUNT_ERROR
| INVALID_DATE_FORMAT
| TRANSACTION_PENDING
| ACCOUNT_NOT_FOUND
| CURRENCY_MISMATCH
| INSUFFICIENT_FUNDS
| TRANSACTION_SUCCESSFUL.
End TRANSACTION_STATUS_CODE_MAPPING.

Module PM := PaymentMessages.
Module SC := TRANSACTION_STATUS_CODE_MAPPING.

(** A thrown error: [throwAppError(message, code)] or a host TypeError. *)
Inductive js_error : Type :=
| AppError (message : PM.t) (code : SC.t)
| TypeError (message : string).

(** A computation that returns a value or throws. *)
Inductive throws (A : Type) : Type :=
| Ret (a : A)
| Throw (e : js_error).
Arguments Ret {A} a.
Arguments Throw {A} e.

Definition tbind {A B} (m : throws A) (k : A -> throws B) : throws B :=
  match m with Ret a => k a | Throw e => Throw e end.

Notation "x <- m ;; k" := (tbind m (fun x => k))
  (at level 61, m at next level, right associativity).

(* ------------------------------------------------------------------ *)
(** ** Parsed instruction *)

Record parsed : Type := mkParsed {
  type : string;
  amount : Q;
  currency : string;
  debit_account : string;
  credit_account : string;
  executeBy : option string   (* [null] is [None] *)
}.

Definition includes (l : list string) (x : option string) : bool :=
  match x with Some s => existsb (String.eqb s) l | None => false end.

(** Checks 1-3, common to every variant of [parseInstruction]: the type
    keyword, the amount ([Number.isNaN(amount) || amount <= 0 ||
    !Number.isInteger(amount)] rejects NaN, both infinities, non-positive
    and non-integral values) and the currency. *)
Definition parse_head (words upperWords : list string)
  : throws (string * Q * string) :=
  match nth_error upperWords 0 with
  | Some type =>
      if negb (includes ["DEBIT"; "CREDIT"] (Some type))
      then Throw (AppError PM.MALFORMED_INSTRUCTION SC.MALFORMED_INSTRUCTION)
      else
        match Number (nth_error words 1) with
        | Fin amount =>
            if Qle_bool amount 0 || negb (Q_is_integer amount)
            then Throw (AppError PM.POSITIVE_INT_ERROR SC.POSITIVE_INT_ERROR)
            else
              let currency := nth_error upperWords 2 in
              match currency with
              | Some c =>
                  if negb (includes ["USD"; "NGN"; "GBP"; "GHS"] currency)
                  then Throw (AppError PM.UNSUPPORTED_CURRENCY SC.UNSUPPORTED_CURRENCY)
                  else Ret (type, amount, c)
              | None => Throw (AppError PM.UNSUPPORTED_CURRENCY SC.UNSUPPORTED_CURRENCY)
              end
        | _ => Throw (AppError PM.POSITIVE_INT_ERROR SC.POSITIVE_INT_ERROR)
        end
  | None => Throw (AppError PM.MALFORMED_INSTRUCTION SC.MALFORMED_INSTRUCTION)
  end.

(** The optional ON date, common to every variant: [words[onIdx + 1]]
    is [undefined] when ON is the last token, and [undefined.split]
    throws a TypeError. *)
Definition parse_on_date (words upperWords : list string)
  : throws (option string) :=
  let onIdx := indexOf upperWords "ON" in
  if onIdx =? -1 then Ret None
  else
    match at_idx words (onIdx + 1) with
    | None => Throw (TypeError "Cannot read properties of undefined (reading 'split')")
    | Some date =>
        if date_rejected date
        then Throw (AppError PM.INVALID_DATE_FORMAT SC.INVALID_DATE_FORMAT)
        else Ret (Some date)
    end.

(** [parseInstruction] of [handle-instruction.js] (lines 30-113), the one
    [handlePaymentInstruction] calls: the account after FROM / TO is the
    token two places further on, with no ordering, ACCOUNT-keyword or
    character check. *)
Module HandleInstruction.

Definition parseInstruction (instruction : string) : throws parsed :=
  let words := words instruction in
  let upperWords := map toUpperCase words in
  h <- parse_head words upperWords ;;
  let '(type, amount, currency) := h in
  let fromIdx := indexOf upperWords "FROM" in
  let toIdx := indexOf upperWords "TO" in
  let fromAccount := if negb (fromIdx =? -1) then at_idx words (fromIdx + 2) else None in
  let toAccount := if negb (toIdx =? -1) then at_idx words (toIdx + 2) else None in
  if negb (truthy_str fromAccount) || negb (truthy_str toAccount)
  then Throw (AppError PM.INVALID_INSTRUCTION_FORMAT SC.MALFORMED_INSTRUCTION)
  else
    match fromAccount, toAccount with
    | Some f, Some t =>
        if String.eqb f t
        then Throw (AppError PM.SAME_ACCOUNT_ERROR SC.SAME_ACCOUNT_ERROR)
        else
          executeBy <- parse_on_date words upperWords ;;
          Ret (mkParsed type amount currency f t executeBy)
    | _, _ => Throw (AppError PM.INVALID_INSTRUCTION_FORMAT SC.MALFORMED_INSTRUCTION)
    end.

End HandleInstruction.

(** [parseInstruction] of [src/unnamed/part_001]: checks that FROM comes
    before TO for DEBIT (TO before FROM for CREDIT), that each keyword is
    followed by ACCOUNT and an identifier, and the identifiers' characters. *)
Module Part001.

Definition allowedCharacters : string :=
  "ABCDEFGHIJKLMNOPQRSTUVWXYZabcdefghijklmnopqrstuvwxyz0123456789-_.".

Definition char_allowed (c : ascii) : bool :=
  existsb (Ascii.eqb c) (list_ascii_of_string allowedCharacters).

(** [[...account].every((char) => allowedCharacters.includes(char))] *)
Definition isValidAccount (account : string) : bool :=
  forallb char_allowed (list_ascii_of_string account).

(** [upperWords.length > idx + 2 && upperWords[idx + 1] === 'ACCOUNT' &&
    words[idx + 2]] for a keyword found at [idx]. *)
Definition account_after (words upperWords : list string) (idx : Z)
  : option string :=
  if negb (idx =? -1) then
    if (Z.of_nat (length upperWords) >? idx + 2)
       && match at_idx upperWords (idx + 1) with
          | Some u => String.eqb u "ACCOUNT" | None => false end
       && truthy_str (at_idx words (idx + 2))
    then at_idx words (idx + 2)
    else None
  else None.

(** The ordering test of lines 48-51. *)
Definition order_rejected (type : string) (fromIdx toIdx : Z) : bool :=
  (String.eqb type "DEBIT" && ((fromIdx =? -1) || (toIdx =? -1) || (fromIdx >? toIdx)))
  || (String.eqb type "CREDIT" && ((toIdx =? -1) || (fromIdx =? -1) || (toIdx >? fromIdx))).

Definition parseInstruction (instruction : string) : throws parsed :=
  let words := words instruction in
  let upperWords := map toUpperCase words in
  h <- parse_head words upperWords ;;
  let '(type, amount, currency) := h in
  let fromIdx := indexOf upperWords "FROM" in
  let toIdx := indexOf upperWords "TO" in
  if order_rejected type fromIdx toIdx
  then Throw (AppError PM.MALFORMED_INSTRUCTION SC.MALFORMED_INSTRUCTION)
  else
    let fromAccount := account_after words upperWords fromIdx in
    let toAccount := account_after words upperWords toIdx in
    if truthy_str fromAccount
       && negb (match fromAccount with Some a => isValidAccount a | None => true end)
    then Throw (AppError PM.INVALID_INSTRUCTION_FORMAT SC.MALFORMED_INSTRUCTION)
    else if truthy_str toAccount
       && negb (match toAccount with Some a => isValidAccount a | None => true end)
    then Throw (AppError PM.INVALID_INSTRUCTION_FORMAT SC.MALFORMED_INSTRUCTION)
    else if negb (truthy_str fromAccount) || negb (truthy_str toAccount)
    then Throw (AppError PM.INVALID_INSTRUCTION_FORMAT SC.MALFORMED_INSTRUCTION)
    else
      match fromAccount, toAccount with
      | Some f, Some t =>
          if String.eqb f t
          then Throw (AppError PM.SAME_ACCOUNT_ERROR SC.SAME_ACCOUNT_ERROR)
          else
            executeBy <- parse_on_date words upperWords ;;
            Ret (mkParsed type amount currency f t executeBy)
      | _, _ => Throw (AppError PM.INVALID_INSTRUCTION_FORMAT SC.MALFORMED_INSTRUCTION)
      end.

End Part001.

(** [parseInstruction] of [src/helpers/parse-instruction.js]: each keyword
    must be followed by ACCOUNT and an identifier (the same test as
    [part_001], lines 45-61), with neither the ordering check nor the
    character check. *)
Module Helpers.

Definition parseInstruction (instruction : string) : throws parsed :=
  let words := words instruction in
  let upperWords := map toUpperCase words in
  h <- parse_head words upperWords ;;
  let '(type, amount, currency) := h in
  let fromIdx := indexOf upperWords "FROM" in
  let toIdx := indexOf upperWords "TO" in
  let fromAccount := Part001.account_after words upperWords fromIdx in
  let toAccount := Part001.account_after words upperWords toIdx in
  if negb (truthy_str fromAccount) || negb (truthy_str toAccount)
  then Throw (AppError PM.INVALID_INSTRUCTION_FORMAT SC.MALFORMED_INSTRUCTION)
  else
    match fromAccount, toAccount with
    | Some f, Some t =>
        if String.eqb f t
        then Throw (AppError PM.SAME_ACCOUNT_ERROR SC.SAME_ACCOUNT_ERROR)
        else
          executeBy <- parse_on_date words upperWords ;;
          Ret (mkParsed type amount currency f t executeBy)
    | _, _ => Throw (AppError PM.INVALID_INSTRUCTION_FORMAT SC.MALFORMED_INSTRUCTION)
    end.

End Helpers.

(* ------------------------------------------------------------------ *)
(** ** Accounts, outcomes and the host environment *)

Module Account.
Record t : Type := mk {
  id : string;
  balance : Q;
  currency : string;
  balance_before : option Q   (* key absent: [None] *)
}.
End Account.

(** Field values of the flattened instruction part of an outcome. *)
Inductive jsval : Type :=
| VNull
| VStr (s : string)
| VNum (q : Q).

Inductive reason : Type :=
| ReasonMsg (m : PM.t)          (* a [PaymentMessages] text *)
| ReasonText (s : string).      (* any other message *)

Inductive status_code_val : Type :=
| CodeKey (k : SC.t)            (* a [TRANSACTION_STATUS_CODE_MAPPING] value *)
| CodeLit (s : string).         (* a literal code *)

(** A response object: its leading keys (the spread [...parsed], or the
    [null] literals of the error branches), then [status],
    [status_reason], [status_code] and [accounts]. *)
Record outcome : Type := mkOutcome {
  fields : list (string * jsval);
  status : string;
  status_reason : reason;
  status_code : status_code_val;
  accounts : list Account.t
}.

(** [...parsed]: the keys of the object literal returned by
    [parseInstruction] (lines 104-111), in order. *)
Definition parsed_fields (p : parsed) : list (string * jsval) :=
  [("type", VStr (type p));
   ("amount", VNum (amount p));
   ("currency", VStr (currency p));
   ("debit_account", VStr (debit_account p));
   ("credit_account", VStr (credit_account p));
   ("executeBy", match executeBy p with Some d => VStr d | None => VNull end)].

(** The [null] literals of the two early-failure branches. *)
Definition null_fields : list (string * jsval) :=
  [("type", VNull); ("amount", VNull); ("currency", VNull);
   ("debit_account", VNull); ("credit_account", VNull); ("execute_by", VNull)].

(** The host: the current instant (ms since the epoch), the local time
    zone's offset from UTC (ms, local = UTC + offset) and the
    implementation-specific fallback of [Date.parse] for strings that are
    not in the ECMAScript date-time format. *)
Record env : Type := mkEnv {
  now : Z;
  tz_offset : Z;
  date_fallback : string -> option Z
}.

(** [const today = new Date(); today.setHours(0, 0, 0, 0);]: local midnight. *)
Definition today_ms (e : env) : Z :=
  (now e + tz_offset e) / msPerDay * msPerDay - tz_offset e.

Definition digits_at (l : list ascii) (from n : nat) : option Z :=
  digits 10 (firstn n (skipn from l)).

Definition char_at_is (l : list ascii) (i : nat) (c : ascii) : bool :=
  match nth_error l i with Some c' => Ascii.eqb c c' | None => false end.

Definition valid_ymd (y m d : Z) : bool :=
  (1 <=? m) && (m <=? 12) && (1 <=? d)
  && match civil_from_days (days_from_civil y m d) with
     | (y', m', d') => (y' =? y) && (m' =? m) && (d' =? d)
     end.

(** A date-only string of the ECMAScript date-time format, [YYYY-MM-DD] or
    [+YYYYYY-MM-DD] / [-YYYYYY-MM-DD] (not [-000000]), with in-range
    month and day: its year, month and day. *)
Definition iso_date_only (s : string) : option (Z * Z * Z) :=
  let l := list_ascii_of_string s in
  let ymd :=
    match length l with
    | 10%nat =>
        if char_at_is l 4 "-" && char_at_is l 7 "-" then
          match digits_at l 0 4, digits_at l 5 2, digits_at l 8 2 with
          | Some y, Some m, Some d => Some (y, m, d)
          | _, _, _ => None
          end
        else None
    | 13%nat =>
        if char_at_is l 7 "-" && char_at_is l 10 "-" then
          match nth_error l 0, digits_at l 1 6, digits_at l 8 2, digits_at l 11 2 with
          | Some sg, Some y, Some m, Some d =>
              if Ascii.eqb sg "+" then Some (y, m, d)
              else if Ascii.eqb sg "-" && negb (y =? 0) then Some (- y, m, d)
              else None
          | _, _, _, _ => None
          end
        else None
    | _ => None
    end in
  match ymd with
  | Some (y, m, d) => if valid_ymd y m d then Some (y, m, d) else None
  | None => None
  end.

(** [new Date(str).valueOf()] ([None] is NaN): date-only forms are UTC
    midnight; other strings are left to the implementation. *)
Definition new_Date (e : env) (s : string) : option Z :=
  match iso_date_only s with
  | Some (y, m, d) =>
      let tv := days_from_civil y m d * msPerDay in
      if Z.abs tv >? 8640000000000000 then None else Some tv
  | None => date_fallback e s
  end.

(* ------------------------------------------------------------------ *)
(** ** [handlePaymentInstruction] *)

Definition with_parsed (p : parsed) (st : string) (r : reason) (c : status_code_val)
  (accs : list Account.t) : outcome :=
  mkOutcome (parsed_fields p) st r c accs.

(** The execution-date check of lines 174-189:
    [if (parsed.executeBy) { if (new Date(parsed.executeBy) > today) ... }]. *)
Definition is_pending (e : env) (p : parsed) : bool :=
  match executeBy p with
  | Some s =>
      if truthy_str (Some s) then
        match new_Date e s with
        | Some execDate => execDate >? today_ms e
        | None => false
        end
      else false
  | None => false
  end.

Definition find_account (accounts : list Account.t) (acc_id : string)
  : option Account.t :=
  find (fun a => String.eqb (Account.id a) acc_id) accounts.

(** Lines 173-255: everything after a successful parse. *)
Definition settle (e : env) (accounts : list Account.t) (parsed : parsed) : outcome :=
  if is_pending e parsed then
    with_parsed parsed "pending" (ReasonMsg PM.TRANSACTION_PENDING)
      (CodeKey SC.TRANSACTION_PENDING) []
  else
    let debitAcc := find_account accounts (debit_account parsed) in
    let creditAcc := find_account accounts (credit_account parsed) in
    match debitAcc, creditAcc with
    | Some debitAcc, Some creditAcc =>
        if negb (String.eqb (toUpperCase (Account.currency debitAcc)) (currency parsed))
           || negb (String.eqb (toUpperCase (Account.currency creditAcc)) (currency parsed))
        then with_parsed parsed "failed" (ReasonMsg PM.CURRENCY_MISMATCH)
               (CodeKey SC.CURRENCY_MISMATCH) [debitAcc; creditAcc]
        else if Q_ltb (Account.balance debitAcc) (amount parsed)
        then with_parsed parsed "failed" (ReasonMsg PM.INSUFFICIENT_FUNDS)
               (CodeKey SC.INSUFFICIENT_FUNDS) [debitAcc; creditAcc]
        else
          let updatedDebit :=
            Account.mk (Account.id debitAcc)
              (Account.balance debitAcc - amount parsed)
              (Account.currency debitAcc) (Some (Account.balance debitAcc)) in
          let updatedCredit :=
            Account.mk (Account.id creditAcc)
              (Account.balance creditAcc + amount parsed)
              (Account.currency creditAcc) (Some (Account.balance creditAcc)) in
          with_parsed parsed "successful" (ReasonMsg PM.TRANSACTION_SUCCESSFUL)
            (CodeKey SC.TRANSACTION_SUCCESSFUL) [updatedDebit; updatedCredit]
    | _, _ =>
        with_parsed parsed "failed" (ReasonMsg PM.ACCOUNT_NOT_FOUND)
          (CodeKey SC.ACCOUNT_NOT_FOUND)
          (filter (fun a => includes [debit_account parsed; credit_account parsed]
                              (Some (Account.id a))) accounts)
    end.

(** [mapValidationErrors]: the first error's message, or [null]. *)
Definition mapValidationErrors (errors : list string) : option string :=
  match errors with [] => None | e :: _ => Some e end.

(** What [validator.validate(body, parsedSpec)] returns: a truthy [error]
    (the list of the errors' messages), or the validated [accounts] and
    [instruction] ([None] when absent). *)
Inductive validation_result : Type :=
| VErrors (errors : list string)
| VOk (accounts : option (list Account.t)) (instruction : option string).

Section Handler.

(** The request body and the external validator ([@app-core/validator]
    with [paymentInstructionSpec]). *)
Variable body : Type.
Variable validate : body -> validation_result.

Definition sanity_outcome : outcome :=
  mkOutcome null_fields "failed"
    (ReasonText "Malformed request: missing accounts or instruction")
    (CodeLit "SY03") [].

(** [catch (err) { ... status_reason: err.message, status_code:
    TRANSACTION_STATUS_CODE_MAPPING.MALFORMED_INSTRUCTION ... }] *)
Definition parse_error_outcome (err : js_error) : outcome :=
  mkOutcome null_fields "failed"
    (match err with AppError m _ => ReasonMsg m | TypeError s => ReasonText s end)
    (CodeKey SC.MALFORMED_INSTRUCTION) [].

(** [handlePaymentInstruction(body)] (the value its promise settles with).
    On a validation error, [readable.join] is called on a string (or on
    [null]), which throws a TypeError before [throwAppError] runs. *)
Definition handlePaymentInstruction (e : env) (b : body) : throws outcome :=
  match validate b with
  | VErrors errors =>
      let readable := mapValidationErrors errors in
      match readable with
      | Some _ => Throw (TypeError "readable.join is not a function")
      | None => Throw (TypeError "Cannot read properties of null (reading 'join')")
      end
  | VOk accounts instruction =>
      match accounts, instruction with
      | Some accounts, Some instruction =>
          if String.eqb instruction "" then Ret sanity_outcome
          else
            match HandleInstruction.parseInstruction instruction with
            | Throw err => Ret (parse_error_outcome err)
            | Ret parsed => Ret (settle e accounts parsed)
            end
      | _, _ => Ret sanity_outcome
      end
  end.

End Handler.

(** The route of [src/unnamed/part_000] (lines 5-32): POST
    [/payment-instructions] answers [{ data: parsedResponse }]; an error
    whose [code] is [ERROR_CODE.BADREQUEST] or [ERROR_CODE.VALIDATION]
    becomes [{ data: { error: true, message, body } }]; any other error is
    re-thrown to the framework. *)
Inductive route_result (body : Type) : Type :=
| RouteData (o : outcome)
| RouteErrorData (message : reason) (b : body)
| RouteThrow (e : js_error).
Arguments RouteData {body} o.
Arguments RouteErrorData {body} message b.
Arguments RouteThrow {body} e.

Section Route.

Variable body : Type.
Variable validate : body -> validation_result.
(** Whether an application error raised with status code [c] has
    [err.code] equal to [ERROR_CODE.BADREQUEST] or [ERROR_CODE.VALIDATION]
    (the constants of [@app-core/errors]). *)
Variable client_code : SC.t -> bool.

Definition error_is_client (err : js_error) : bool :=
  match err with
  | AppError _ c => client_code c
  | TypeError _ => false          (* a TypeError has no [code] *)
  end.

Definition error_message (err : js_error) : reason :=
  match err with AppError m _ => ReasonMsg m | TypeError s => ReasonText s end.

Definition route_handler (e : env) (b : body) : route_result body :=
  match handlePaymentInstruction body validate e b with
  | Ret parsedResponse => RouteData parsedResponse
  | Throw err =>
      if error_is_client err then RouteErrorData (error_message err) b
      else RouteThrow err
  end.

End Route.

(* ================================================================== *)
(** * Properties *)

(** ** Lemmas on [indexOf] and [parse_head] *)

Lemma indexOf_from_spec (l : list string) (x : string) (i : Z) :
  0 <= i ->
  indexOf_from l x i = -1
  \/ (i <= indexOf_from l x i
      /\ nth_error l (Z.to_nat (indexOf_from l x i - i)) = Some x).
Proof.
  revert i; induction l as [| y l IH]; intros i Hi; simpl.
  - left; reflexivity.
  - destruct (String.eqb_spec y x) as [-> | Hne].
    + right; split; [lia |]. replace (i - i) with 0 by lia. reflexivity.
    + destruct (IH (i + 1) ltac:(lia)) as [H | [Hle Hn]]; [left; exact H |].
      right; split; [lia |].
      replace (Z.to_nat (indexOf_from l x (i + 1) - i))
        with (S (Z.to_nat (indexOf_from l x (i + 1) - (i + 1)))) by lia.
      exact Hn.
Qed.

Lemma indexOf_found (l : list string) (x : string) :
  indexOf l x = -1 \/ (0 <= indexOf l x /\ nth_error l (Z.to_nat (indexOf l x)) = Some x).
Proof.
  unfold indexOf. destruct (indexOf_from_spec l x 0 ltac:(lia)) as [H | [H1 H2]].
  - left; exact H.
  - right; split; [lia |]. rewrite Z.sub_0_r in H2. exact H2.
Qed.

(** Two different keywords found in one token list sit at different places. *)
Lemma indexOf_distinct (l : list string) (x y : string) :
  x <> y -> indexOf l x <> -1 -> indexOf l y <> -1 -> indexOf l x <> indexOf l y.
Proof.
  intros Hxy Hx Hy Heq.
  destruct (indexOf_found l x) as [? | [_ Hnx]]; [contradiction |].
  destruct (indexOf_found l y) as [? | [_ Hny]]; [contradiction |].
  rewrite Heq in Hnx. rewrite Hnx in Hny. injection Hny as Hny. contradiction.
Qed.

Lemma parse_head_type (w uw : list string) (t : string) (a : Q) (c : string) :
  parse_head w uw = Ret (t, a, c) -> t = "DEBIT" \/ t = "CREDIT".
Proof.
  unfold parse_head.
  destruct (nth_error uw 0) as [t0 |]; [| discriminate].
  destruct (includes ["DEBIT"; "CREDIT"] (Some t0)) eqn:Hin; [| discriminate].
  cbn [negb]. intros H.
  assert (t0 = t).
  { destruct (Number (nth_error w 1)) as [| | | q]; try discriminate.
    destruct (Qle_bool q 0 || negb (Q_is_integer q)); try discriminate.
    destruct (nth_error uw 2) as [c0 |]; try discriminate.
    destruct (includes ["USD"; "NGN"; "GBP"; "GHS"] (Some c0)); simpl in H;
      congruence. }
  subst t0. simpl in Hin.
  destruct (String.eqb_spec t "DEBIT"); [left; assumption |].
  destruct (String.eqb_spec t "CREDIT"); [right; assumption |].
  discriminate.
Qed.

(** [parse_on_date] never raises [MALFORMED_INSTRUCTION]. *)
Lemma parse_on_date_not_malformed (w uw : list string) :
  parse_on_date w uw <> Throw (AppError PM.MALFORMED_INSTRUCTION SC.MALFORMED_INSTRUCTION).
Proof.
  unfold parse_on_date.
  destruct (indexOf uw "ON" =? -1); [discriminate |].
  destruct (at_idx w (indexOf uw "ON" + 1)); [| discriminate].
  destruct (date_rejected s); discriminate.
Qed.

(** Case analysis on every [if] of a goal's left-hand side, closing the
    branches that are plainly different throws. *)
Ltac split_ifs :=
  repeat match goal with
         | |- context [if ?b then _ else _] => destruct b
         | |- context [match ?o with Some _ => _ | None => _ end] => destruct o
         end.

Lemma order_rejected_spec (t : string) (f g : Z) :
  (t = "DEBIT" \/ t = "CREDIT") -> (f = -1 \/ g = -1 \/ f <> g) ->
  (Part001.order_rejected t f g = true
   <-> f = -1 \/ g = -1 \/ (t = "DEBIT" /\ ~ f < g) \/ (t = "CREDIT" /\ ~ g < f)).
Proof.
  intros Ht Hd. unfold Part001.order_rejected. rewrite !Z.gtb_ltb.
  destruct Ht as [-> | ->]; cbn [String.eqb Ascii.eqb Bool.eqb andb orb];
    destruct (Z.eqb_spec f (-1)), (Z.eqb_spec g (-1)),
             (Z.ltb_spec g f), (Z.ltb_spec f g); cbn;
    intuition (try discriminate; try lia).
Qed.

(** ** C1: FROM / TO presence and order (the parser of [part_001]) *)

(** C1. When the type, amount and currency checks pass, [part_001]'s
    [parseInstruction] fails with MalformedInstruction exactly when FROM or
    TO (case-insensitive) is absent, or the type is DEBIT and FROM does not
    come before TO, or the type is CREDIT and TO does not come before FROM;
    the ordering check rejects exactly these instructions and lets every
    other one through. *)
Theorem Part001_parse_from_to_order (instruction t c : string) (a : Q) :
  parse_head (words instruction) (upperWords instruction) = Ret (t, a, c) ->
  let fromIdx := indexOf (upperWords instruction) "FROM" in
  let toIdx := indexOf (upperWords instruction) "TO" in
  let spec_violated :=
    fromIdx = -1 \/ toIdx = -1
    \/ (t = "DEBIT" /\ ~ fromIdx < toIdx)
    \/ (t = "CREDIT" /\ ~ toIdx < fromIdx) in
  (Part001.order_rejected t fromIdx toIdx = true <-> spec_violated)
  /\ (Part001.parseInstruction instruction
        = Throw (AppError PM.MALFORMED_INSTRUCTION SC.MALFORMED_INSTRUCTION)
      <-> spec_violated).
Proof.
  intros Hhead fromIdx toIdx spec_violated.
  assert (Hord : Part001.order_rejected t fromIdx toIdx = true <-> spec_violated).
  { apply order_rejected_spec; [exact (parse_head_type _ _ _ _ _ Hhead) |].
    destruct (Z.eq_dec fromIdx (-1)) as [E | E]; [left; exact E |].
    destruct (Z.eq_dec toIdx (-1)) as [E' | E']; [right; left; exact E' |].
    right; right. apply indexOf_distinct; [discriminate | exact E | exact E']. }
  split; [exact Hord |].
  rewrite <- Hord.
  unfold Part001.parseInstruction. fold (upperWords instruction).
  rewrite Hhead. cbn [tbind].
  fold fromIdx toIdx.
  destruct (Part001.order_rejected t fromIdx toIdx).
  - split; reflexivity.
  - split; [| discriminate]. intros H; exfalso; revert H.
    split_ifs; try discriminate.
    destruct (parse_on_date _ _) eqn:Hd; cbn [tbind]; [discriminate |].
    intro E; injection E as ->. exact (parse_on_date_not_malformed _ _ Hd).
Qed.

(** C1 at [CREDIT 100 USD FROM ACCOUNT A1 TO ACCOUNT A2]: FROM comes
    before TO in a CREDIT instruction, which is malformed. *)
Lemma Part001_parse_from_to_order_witness :
  parse_head (words "CREDIT 100 USD FROM ACCOUNT A1 TO ACCOUNT A2")
    (upperWords "CREDIT 100 USD FROM ACCOUNT A1 TO ACCOUNT A2")
    = Ret ("CREDIT", 100%Q, "USD")
  /\ Part001.parseInstruction "CREDIT 100 USD FROM ACCOUNT A1 TO ACCOUNT A2"
     = Throw (AppError PM.MALFORMED_INSTRUCTION SC.MALFORMED_INSTRUCTION).
Proof.
  assert (H : parse_head (words "CREDIT 100 USD FROM ACCOUNT A1 TO ACCOUNT A2")
                (upperWords "CREDIT 100 USD FROM ACCOUNT A1 TO ACCOUNT A2")
              = Ret ("CREDIT", 100%Q, "USD")) by (vm_compute; reflexivity).
  split; [exact H |].
  apply (proj2 (Part001_parse_from_to_order _ _ _ _ H)).
  right; right; right. split; [reflexivity | vm_compute; discriminate].
Defined.

(** ** C8: characters of account identifiers (the parser of [part_001]) *)

(** The identifier alphabet named by the spec, by character code:
    [A-Z], [a-z], [0-9], [-], [_] and [.]. *)
Definition id_char_spec (ch : ascii) : Prop :=
  let n := nat_of_ascii ch in
  ((65 <= n <= 90) \/ (97 <= n <= 122) \/ (48 <= n <= 57)
   \/ n = 45 \/ n = 95 \/ n = 46)%nat.

Lemma char_allowed_spec (ch : ascii) :
  Part001.char_allowed ch = true <-> id_char_spec ch.
Proof.
  unfold id_char_spec.
  destruct ch as [[] [] [] [] [] [] [] []]; vm_compute;
    split; intro H; try discriminate; try reflexivity; lia.
Qed.

Lemma isValidAccount_false (acc : string) (ch : ascii) :
  In ch (list_ascii_of_string acc) -> ~ id_char_spec ch ->
  Part001.isValidAccount acc = false.
Proof.
  intros Hin Hno. unfold Part001.isValidAccount.
  destruct (forallb Part001.char_allowed (list_ascii_of_string acc)) eqn:E;
    [| reflexivity].
  exfalso. apply Hno, char_allowed_spec.
  exact (proj1 (forallb_forall _ _) E ch Hin).
Qed.

Lemma isValidAccount_true (acc : string) (ch : ascii) :
  Part001.isValidAccount acc = true -> In ch (list_ascii_of_string acc) ->
  id_char_spec ch.
Proof.
  intros E Hin. apply char_allowed_spec.
  exact (proj1 (forallb_forall _ _) E ch Hin).
Qed.

Lemma account_after_truthy (w uw : list string) (idx : Z) (acc : string) :
  Part001.account_after w uw idx = Some acc -> truthy_str (Some acc) = true.
Proof.
  unfold Part001.account_after.
  destruct (negb (idx =? -1)); [| discriminate].
  destruct (_ && _ && truthy_str (at_idx w (idx + 2))) eqn:E; [| discriminate].
  intros H. rewrite H in E. apply andb_prop in E. exact (proj2 E).
Qed.

(** C8. In [part_001]'s [parseInstruction], once the checks before
    account resolution pass, an identifier resolved after FROM or TO that
    holds a character outside letters, digits, [-], [_] and [.] makes the
    parse fail with InvalidInstructionFormat; hence in every successfully
    parsed instruction both account identifiers use only those characters. *)
Theorem Part001_account_charset :
  (forall (instruction t c : string) (a : Q) (acc : string) (ch : ascii),
      parse_head (words instruction) (upperWords instruction) = Ret (t, a, c) ->
      Part001.order_rejected t (indexOf (upperWords instruction) "FROM")
        (indexOf (upperWords instruction) "TO") = false ->
      (Part001.account_after (words instruction) (upperWords instruction)
         (indexOf (upperWords instruction) "FROM") = Some acc
       \/ Part001.account_after (words instruction) (upperWords instruction)
            (indexOf (upperWords instruction) "TO") = Some acc) ->
      In ch (list_ascii_of_string acc) -> ~ id_char_spec ch ->
      Part001.parseInstruction instruction
      = Throw (AppError PM.INVALID_INSTRUCTION_FORMAT SC.MALFORMED_INSTRUCTION))
  /\ (forall (instruction : string) (p : parsed),
      Part001.parseInstruction instruction = Ret p ->
      forall ch, In ch (list_ascii_of_string (debit_account p))
                 \/ In ch (list_ascii_of_string (credit_account p)) ->
      id_char_spec ch).
Proof.
  split.
  - intros instruction t c a acc ch Hhead Hord Hres Hin Hno.
    pose proof (isValidAccount_false _ _ Hin Hno) as Hbad.
    unfold Part001.parseInstruction. fold (upperWords instruction).
    rewrite Hhead. cbn [tbind]. rewrite Hord.
    destruct Hres as [Hf | Ht].
    + rewrite Hf, (account_after_truthy _ _ _ _ Hf), Hbad. reflexivity.
    + destruct (truthy_str (Part001.account_after (words instruction)
                  (upperWords instruction) (indexOf (upperWords instruction) "FROM"))
                && negb (match Part001.account_after (words instruction)
                  (upperWords instruction) (indexOf (upperWords instruction) "FROM")
                  with Some a0 => Part001.isValidAccount a0 | None => true end));
        [reflexivity |].
      rewrite Ht, (account_after_truthy _ _ _ _ Ht), Hbad. reflexivity.
  - intros instruction p Hp ch Hch.
    unfold Part001.parseInstruction in Hp. fold (upperWords instruction) in Hp.
    destruct (parse_head (words instruction) (upperWords instruction))
      as [[[t a] c] | e]; [| discriminate].
    cbn [tbind] in Hp.
    destruct (Part001.order_rejected _ _ _); [discriminate |].
    destruct (Part001.account_after (words instruction) (upperWords instruction)
                (indexOf (upperWords instruction) "FROM")) as [f |] eqn:Ef;
    destruct (Part001.account_after (words instruction) (upperWords instruction)
                (indexOf (upperWords instruction) "TO")) as [g |] eqn:Eg;
      try (rewrite (account_after_truthy _ _ _ _ Ef) in Hp);
      try (rewrite (account_after_truthy _ _ _ _ Eg) in Hp);
      cbn [truthy_str negb andb orb String.eqb] in Hp; try discriminate;
      try (destruct (Part001.isValidAccount _) in Hp; discriminate).
    destruct (Part001.isValidAccount f) eqn:Vf; [| discriminate].
    destruct (Part001.isValidAccount g) eqn:Vg; [| discriminate].
    cbn [negb andb orb] in Hp.
    destruct (String.eqb f g); [discriminate |].
    destruct (parse_on_date _ _) as [ex |]; cbn [tbind] in Hp; [| discriminate].
    injection Hp as <-. cbn [debit_account credit_account] in Hch.
    destruct Hch as [Hch | Hch].
    + exact (isValidAccount_true _ _ Vf Hch).
    + exact (isValidAccount_true _ _ Vg Hch).
Qed.

(** C8 at [DEBIT 100 USD FROM ACCOUNT A$1 TO ACCOUNT A2]: [$] is outside
    the alphabet. *)
Lemma Part001_account_charset_witness :
  Part001.parseInstruction "DEBIT 100 USD FROM ACCOUNT A$1 TO ACCOUNT A2"
  = Throw (AppError PM.INVALID_INSTRUCTION_FORMAT SC.MALFORMED_INSTRUCTION).
Proof.
  apply (proj1 Part001_account_charset
           "DEBIT 100 USD FROM ACCOUNT A$1 TO ACCOUNT A2" "DEBIT" "USD" 100%Q
           "A$1" "$"%char).
  - vm_compute; reflexivity.
  - vm_compute; reflexivity.
  - left; vm_compute; reflexivity.
  - simpl; right; left; reflexivity.
  - unfold id_char_spec; vm_compute; lia.
Defined.

(** ** C4: the ON date (the parser [handlePaymentInstruction] uses) *)

(** The shape named by the spec: four digits, [-], two digits, [-], two
    digits. *)
Definition is_YYYY_MM_DD (s : string) : bool :=
  let l := list_ascii_of_string s in
  let is_digit c := match digit_val 10 c with Some _ => true | None => false end in
  (length l =? 10)%nat
  && char_at_is l 4 "-" && char_at_is l 7 "-"
  && forallb (fun i => match nth_error l i with Some c => is_digit c | None => false end)
       [0; 1; 2; 3; 5; 6; 8; 9]%nat.

Lemma truthy_nonempty (s : string) : s <> "" -> truthy_str (Some s) = true.
Proof.
  intros H. unfold truthy_str. destruct (String.eqb_spec s ""); [contradiction | reflexivity].
Qed.

(** C4 (amended). For an instruction whose checks before the date step
    pass, in the parser [handlePaymentInstruction] calls: without ON the
    execution date is null; with ON followed by a token [date], the parse
    succeeds with that date exactly when the UTC round trip of
    [date.split('-').map(Number)] through [Date.UTC] holds, and fails with
    InvalidDateFormat otherwise.  [2025-02-30] and [2023-02-29] fail the
    round trip, [2024-02-29] and the unpadded [2025-1-5] pass it. *)
Theorem HandleInstruction_on_date (instruction t c f g : string) (a : Q) :
  parse_head (words instruction) (upperWords instruction) = Ret (t, a, c) ->
  (if negb (indexOf (upperWords instruction) "FROM" =? -1)
   then at_idx (words instruction) (indexOf (upperWords instruction) "FROM" + 2)
   else None) = Some f ->
  (if negb (indexOf (upperWords instruction) "TO" =? -1)
   then at_idx (words instruction) (indexOf (upperWords instruction) "TO" + 2)
   else None) = Some g ->
  f <> "" -> g <> "" -> f <> g ->
  (indexOf (upperWords instruction) "ON" = -1 ->
   HandleInstruction.parseInstruction instruction = Ret (mkParsed t a c f g None))
  /\ (forall date,
      indexOf (upperWords instruction) "ON" <> -1 ->
      at_idx (words instruction) (indexOf (upperWords instruction) "ON" + 1) = Some date ->
      (date_rejected date = false
       /\ HandleInstruction.parseInstruction instruction
          = Ret (mkParsed t a c f g (Some date)))
      \/ (date_rejected date = true
          /\ HandleInstruction.parseInstruction instruction
             = Throw (AppError PM.INVALID_DATE_FORMAT SC.INVALID_DATE_FORMAT)))
  /\ date_rejected "2025-02-30" = true
  /\ date_rejected "2024-02-29" = false
  /\ date_rejected "2023-02-29" = true
  /\ date_rejected "2025-1-5" = false.
Proof.
  intros Hhead Hf Hg Hf0 Hg0 Hfg.
  assert (Hparse : HandleInstruction.parseInstruction instruction
                   = tbind (parse_on_date (words instruction) (upperWords instruction))
                       (fun ex => Ret (mkParsed t a c f g ex))).
  { unfold HandleInstruction.parseInstruction. fold (upperWords instruction).
    rewrite Hhead. cbn [tbind]. rewrite Hf, Hg.
    rewrite (truthy_nonempty f Hf0), (truthy_nonempty g Hg0). cbn [negb orb].
    destruct (String.eqb_spec f g); [contradiction | reflexivity]. }
  rewrite Hparse. unfold parse_on_date.
  split; [| split; [| split; [| split; [| split]]]];
    [| | vm_compute; reflexivity | vm_compute; reflexivity
     | vm_compute; reflexivity | vm_compute; reflexivity].
  - intros Hon. rewrite Hon. reflexivity.
  - intros date Hon Hd.
    destruct (Z.eqb_spec (indexOf (upperWords instruction) "ON") (-1)); [contradiction |].
    rewrite Hd.
    destruct (date_rejected date); [right | left]; split; reflexivity.
Qed.

(** C4 is too strong as stated: [2025-1-5] is not of the form YYYY-MM-DD,
    yet the parser accepts it as the execution date. *)
Lemma HandleInstruction_on_date_counterexample :
  HandleInstruction.parseInstruction "DEBIT 100 USD FROM ACCOUNT A1 TO ACCOUNT A2 ON 2025-1-5"
  = Ret (mkParsed "DEBIT" 100 "USD" "A1" "A2" (Some "2025-1-5"))
  /\ is_YYYY_MM_DD "2025-1-5" = false.
Proof. split; vm_compute; reflexivity. Qed.

(** C4 at [DEBIT 100 USD FROM ACCOUNT A1 TO ACCOUNT A2 ON 2024-02-29]. *)
Lemma HandleInstruction_on_date_witness :
  HandleInstruction.parseInstruction "DEBIT 100 USD FROM ACCOUNT A1 TO ACCOUNT A2 ON 2024-02-29"
  = Ret (mkParsed "DEBIT" 100 "USD" "A1" "A2" (Some "2024-02-29")).
Proof.
  destruct (HandleInstruction_on_date
              "DEBIT 100 USD FROM ACCOUNT A1 TO ACCOUNT A2 ON 2024-02-29"
              "DEBIT" "USD" "A1" "A2" 100%Q
              ltac:(vm_compute; reflexivity) ltac:(vm_compute; reflexivity)
              ltac:(vm_compute; reflexivity) ltac:(discriminate)
              ltac:(discriminate) ltac:(discriminate)) as [_ [Hon _]].
  destruct (Hon "2024-02-29" ltac:(vm_compute; discriminate)
              ltac:(vm_compute; reflexivity)) as [[_ H] | [H _]].
  - exact H.
  - exfalso; vm_compute in H; discriminate.
Defined.

(** ** The settlement evaluator *)

Lemma find_account_some (accs : list Account.t) (k : string) (x : Account.t) :
  find_account accs k = Some x -> In x accs /\ Account.id x = k.
Proof.
  unfold find_account. intros H.
  destruct (find_some _ _ H) as [Hin Hk].
  split; [exact Hin | apply String.eqb_eq; exact Hk].
Qed.

Lemma find_account_none (accs : list Account.t) (k : string) (x : Account.t) :
  find_account accs k = None -> In x accs -> Account.id x <> k.
Proof.
  unfold find_account. intros H Hin E.
  pose proof (find_none _ _ H x Hin) as Hx. simpl in Hx.
  rewrite E, String.eqb_refl in Hx. discriminate.
Qed.

(** Settlement of an instruction that is not pending, with both accounts
    found, matching currencies and enough funds. *)
Lemma settle_successful (e : env) (accs : list Account.t) (p : parsed)
  (d c : Account.t) :
  is_pending e p = false ->
  find_account accs (debit_account p) = Some d ->
  find_account accs (credit_account p) = Some c ->
  toUpperCase (Account.currency d) = currency p ->
  toUpperCase (Account.currency c) = currency p ->
  ~ (Account.balance d < amount p)%Q ->
  settle e accs p
  = with_parsed p "successful" (ReasonMsg PM.TRANSACTION_SUCCESSFUL)
      (CodeKey SC.TRANSACTION_SUCCESSFUL)
      [Account.mk (Account.id d) (Account.balance d - amount p)
         (Account.currency d) (Some (Account.balance d));
       Account.mk (Account.id c) (Account.balance c + amount p)
         (Account.currency c) (Some (Account.balance c))].
Proof.
  intros Hp Hd Hc Hcd Hcc Hbal. unfold settle.
  rewrite Hp, Hd, Hc, Hcd, Hcc, String.eqb_refl. cbn [negb orb].
  unfold Q_ltb. destruct (Qle_bool (amount p) (Account.balance d)) eqn:E.
  - reflexivity.
  - exfalso. apply Hbal. apply Qnot_le_lt. intros Hle.
    apply Qle_bool_iff in Hle. congruence.
Qed.

(** A date-only string naming the current local calendar day is pending
    as soon as the local time zone is ahead of UTC: the date is read as
    UTC midnight and compared with local midnight, which is earlier. *)
Lemma settle_today_pending (e : env) (accs : list Account.t) (p : parsed)
  (s : string) (y m d : Z) :
  0 < tz_offset e < msPerDay ->
  executeBy p = Some s ->
  iso_date_only s = Some (y, m, d) ->
  days_from_civil y m d = (now e + tz_offset e) / msPerDay ->
  Z.abs (days_from_civil y m d * msPerDay) <= 8640000000000000 ->
  settle e accs p
  = with_parsed p "pending" (ReasonMsg PM.TRANSACTION_PENDING)
      (CodeKey SC.TRANSACTION_PENDING) [].
Proof.
  intros Hoff Hex Hiso Hday Hclip.
  assert (Hs : s <> "") by (intros ->; discriminate Hiso).
  unfold settle, is_pending. rewrite Hex, (truthy_nonempty s Hs).
  unfold new_Date. rewrite Hiso.
  replace (Z.abs (days_from_civil y m d * msPerDay) >? 8640000000000000) with false
    by (symmetry; rewrite Z.gtb_ltb; apply Z.ltb_ge; lia).
  replace (days_from_civil y m d * msPerDay >? today_ms e) with true.
  - reflexivity.
  - symmetry. rewrite Z.gtb_ltb. apply Z.ltb_lt. unfold today_ms. rewrite <- Hday.
    unfold msPerDay in *. lia.
Qed.

(** The host of the examples below: 2026-10-14T10:00:00Z in a zone one
    hour ahead of UTC (West Africa Time). *)
Definition lagos_env : env := mkEnv 1791972000000 3600000 (fun _ => None).

Definition two_accounts (a1 : Q) : list Account.t :=
  [Account.mk "A1" a1 "USD" None; Account.mk "A2" 50 "USD" None].

Definition request (accs : list Account.t) (instruction : string) : unit -> validation_result :=
  fun _ => VOk (Some accs) (Some instruction).

(** C3 at its failing input: on 2026-10-14 (local and UTC), an instruction
    dated 2026-10-14 is reported pending in a UTC+1 zone, although that
    date is the current day. *)
Lemma settle_pending_today_lagos :
  days_from_civil 2026 10 14 = (now lagos_env + tz_offset lagos_env) / msPerDay
  /\ handlePaymentInstruction unit
       (request (two_accounts 200) "DEBIT 100 USD FROM ACCOUNT A1 TO ACCOUNT A2 ON 2026-10-14")
       lagos_env tt
     = Ret (with_parsed (mkParsed "DEBIT" 100 "USD" "A1" "A2" (Some "2026-10-14"))
              "pending" (ReasonMsg PM.TRANSACTION_PENDING)
              (CodeKey SC.TRANSACTION_PENDING) []).
Proof.
  split; [vm_compute; reflexivity |].
  assert (Hp : HandleInstruction.parseInstruction
                 "DEBIT 100 USD FROM ACCOUNT A1 TO ACCOUNT A2 ON 2026-10-14"
               = Ret (mkParsed "DEBIT" 100 "USD" "A1" "A2" (Some "2026-10-14")))
    by (vm_compute; reflexivity).
  unfold handlePaymentInstruction, request. cbn [String.eqb Ascii.eqb Bool.eqb].
  rewrite Hp. apply (f_equal Ret).
  apply (settle_today_pending _ _ _ "2026-10-14" 2026 10 14);
    try (vm_compute; reflexivity); try (vm_compute; split; reflexivity);
    vm_compute; discriminate.
Qed.

(** C2 at its failing input (the same defect as C3): with the date of the
    current day the transfer is left pending instead of being settled;
    without an ON date the spec's example settles as stated. *)
Lemma settle_successful_today_lagos :
  handlePaymentInstruction unit
    (request (two_accounts 200) "DEBIT 100 USD FROM ACCOUNT A1 TO ACCOUNT A2 ON 2026-10-14")
    lagos_env tt
  = Ret (with_parsed (mkParsed "DEBIT" 100 "USD" "A1" "A2" (Some "2026-10-14"))
           "pending" (ReasonMsg PM.TRANSACTION_PENDING)
           (CodeKey SC.TRANSACTION_PENDING) [])
  /\ handlePaymentInstruction unit
       (request (two_accounts 200) "DEBIT 100 USD FROM ACCOUNT A1 TO ACCOUNT A2")
       lagos_env tt
     = Ret (with_parsed (mkParsed "DEBIT" 100 "USD" "A1" "A2" None)
              "successful" (ReasonMsg PM.TRANSACTION_SUCCESSFUL)
              (CodeKey SC.TRANSACTION_SUCCESSFUL)
              [Account.mk "A1" 100 "USD" (Some 200%Q);
               Account.mk "A2" 150 "USD" (Some 50%Q)]).
Proof. split; vm_compute; reflexivity. Qed.

(** Every account an outcome lists on a failed evaluation is one of the
    supplied records, unchanged. *)
Lemma settle_failed_accounts_supplied (e : env) (accs : list Account.t) (p : parsed) :
  status (settle e accs p) = "failed" ->
  forall x, In x (accounts (settle e accs p)) -> In x accs.
Proof.
  unfold settle. destruct (is_pending e p); [intros _ x [] |].
  destruct (find_account accs (debit_account p)) as [d |] eqn:Hd;
  destruct (find_account accs (credit_account p)) as [c |] eqn:Hc;
    try (intros _ x Hx; apply filter_In in Hx; exact (proj1 Hx)).
  pose proof (proj1 (find_account_some _ _ _ Hd)) as Hind.
  pose proof (proj1 (find_account_some _ _ _ Hc)) as Hinc.
  destruct (_ || _).
  - intros _ x [<- | [<- | []]]; assumption.
  - destruct (Q_ltb _ _).
    + intros _ x [<- | [<- | []]]; assumption.
    + cbn. discriminate.
Qed.

(** ** C5: insufficient funds *)

(** C5. An instruction that is not pending, whose two accounts are found
    with the instruction's currency, and whose debit balance is below the
    amount, fails with INSUFFICIENT_FUNDS and lists exactly the supplied
    debit and credit records, balances untouched; no failed outcome lists
    anything but supplied records. *)
Theorem settle_insufficient_funds (e : env) (accs : list Account.t) (p : parsed)
  (d c : Account.t) :
  is_pending e p = false ->
  find_account accs (debit_account p) = Some d ->
  find_account accs (credit_account p) = Some c ->
  toUpperCase (Account.currency d) = currency p ->
  toUpperCase (Account.currency c) = currency p ->
  (Account.balance d < amount p)%Q ->
  settle e accs p
  = with_parsed p "failed" (ReasonMsg PM.INSUFFICIENT_FUNDS)
      (CodeKey SC.INSUFFICIENT_FUNDS) [d; c]
  /\ In d accs /\ Account.id d = debit_account p
  /\ In c accs /\ Account.id c = credit_account p
  /\ (forall e' p', status (settle e' accs p') = "failed" ->
      forall x, In x (accounts (settle e' accs p')) -> In x accs).
Proof.
  intros Hp Hd Hc Hcd Hcc Hlt.
  destruct (find_account_some _ _ _ Hd) as [Hind Hidd].
  destruct (find_account_some _ _ _ Hc) as [Hinc Hidc].
  split; [| repeat split; try assumption;
           intros e' p'; apply settle_failed_accounts_supplied].
  unfold settle. rewrite Hp, Hd, Hc, Hcd, Hcc, String.eqb_refl. cbn [negb orb].
  unfold Q_ltb. destruct (Qle_bool (amount p) (Account.balance d)) eqn:E.
  - exfalso. apply Qle_bool_iff in E. apply (Qlt_not_le _ _ Hlt E).
  - reflexivity.
Qed.

(** C5 at the spec's example with [A1] holding 50. *)
Lemma settle_insufficient_funds_witness :
  settle lagos_env (two_accounts 50) (mkParsed "DEBIT" 100 "USD" "A1" "A2" None)
  = with_parsed (mkParsed "DEBIT" 100 "USD" "A1" "A2" None) "failed"
      (ReasonMsg PM.INSUFFICIENT_FUNDS) (CodeKey SC.INSUFFICIENT_FUNDS)
      [Account.mk "A1" 50 "USD" None; Account.mk "A2" 50 "USD" None].
Proof.
  exact (proj1 (settle_insufficient_funds lagos_env (two_accounts 50)
           (mkParsed "DEBIT" 100 "USD" "A1" "A2" None)
           (Account.mk "A1" 50 "USD" None) (Account.mk "A2" 50 "USD" None)
           ltac:(vm_compute; reflexivity) ltac:(vm_compute; reflexivity)
           ltac:(vm_compute; reflexivity) ltac:(vm_compute; reflexivity)
           ltac:(vm_compute; reflexivity) ltac:(vm_compute; reflexivity))).
Defined.

(** ** C6: the flattened instruction fields *)

(** C6 (the defect). Every outcome built from a parsed instruction carries
    the parser's keys, whose date key is [executeBy]: it has no
    [execute_by] key, unlike the early-failure outcomes. *)
Theorem settle_fields_executeBy (e : env) (accs : list Account.t) (p : parsed) :
  fields (settle e accs p) = parsed_fields p
  /\ map fst (fields (settle e accs p))
     = ["type"; "amount"; "currency"; "debit_account"; "credit_account"; "executeBy"]
  /\ ~ In "execute_by" (map fst (fields (settle e accs p)))
  /\ In "execute_by" (map fst null_fields).
Proof.
  assert (H : fields (settle e accs p) = parsed_fields p).
  { unfold settle. destruct (is_pending e p); [reflexivity |].
    destruct (find_account accs (debit_account p));
    destruct (find_account accs (credit_account p)); try reflexivity.
    destruct (_ || _); [reflexivity |]. destruct (Q_ltb _ _); reflexivity. }
  rewrite H. split; [reflexivity | split; [reflexivity | split]].
  - cbn. intros Hin. repeat destruct Hin as [Hin | Hin]; discriminate || contradiction.
  - cbn. right; right; right; right; right; left; reflexivity.
Qed.

(** ** C7: unknown accounts *)

Lemma find_account_nodup (accs : list Account.t) (x : Account.t) :
  NoDup (map Account.id accs) -> In x accs ->
  find_account accs (Account.id x) = Some x.
Proof.
  induction accs as [| a l IH]; intros Hnd Hin; [destruct Hin |].
  cbn in Hnd. apply NoDup_cons_iff in Hnd as [Hnotin Hnd].
  unfold find_account; cbn.
  destruct (String.eqb_spec (Account.id a) (Account.id x)) as [E | E].
  - destruct Hin as [-> | Hin]; [reflexivity |].
    exfalso; apply Hnotin. rewrite E. apply in_map; exact Hin.
  - destruct Hin as [-> | Hin]; [contradiction |]. apply IH; assumption.
Qed.

Lemma nodup_map_filter (f : Account.t -> bool) (l : list Account.t) :
  NoDup (map Account.id l) -> NoDup (map Account.id (filter f l)).
Proof.
  induction l as [| a l IH]; cbn; intros Hnd; [constructor |].
  apply NoDup_cons_iff in Hnd as [Hnotin Hnd].
  destruct (f a); cbn; [| apply IH; exact Hnd].
  constructor; [| apply IH; exact Hnd].
  intros Hin. apply Hnotin. apply in_map_iff in Hin as [y [Ey Hy]].
  apply filter_In in Hy. rewrite <- Ey. apply in_map, Hy.
Qed.

Lemma nodup_same_id (l : list Account.t) (k : string) :
  NoDup (map Account.id l) -> (forall x, In x l -> Account.id x = k) ->
  (length l <= 1)%nat.
Proof.
  destruct l as [| x [| y l]]; cbn; intros Hnd Hk; try lia.
  exfalso. apply NoDup_cons_iff in Hnd as [Hnotin _]. apply Hnotin.
  rewrite (Hk x (or_introl eq_refl)), <- (Hk y (or_intror (or_introl eq_refl))).
  left; reflexivity.
Qed.

(** C7 (amended). An instruction that is not pending and one of whose
    accounts is not supplied fails with ACCOUNT_NOT_FOUND; its accounts are
    the supplied records whose id is the debit or the credit identifier, in
    input order.  When the supplied ids are distinct these are exactly the
    referenced accounts that were found, at most one. *)
Theorem settle_account_not_found (e : env) (accs : list Account.t) (p : parsed) :
  is_pending e p = false ->
  find_account accs (debit_account p) = None
  \/ find_account accs (credit_account p) = None ->
  status (settle e accs p) = "failed"
  /\ status_reason (settle e accs p) = ReasonMsg PM.ACCOUNT_NOT_FOUND
  /\ status_code (settle e accs p) = CodeKey SC.ACCOUNT_NOT_FOUND
  /\ accounts (settle e accs p)
     = filter (fun a => String.eqb (Account.id a) (debit_account p)
                        || String.eqb (Account.id a) (credit_account p)) accs
  /\ (NoDup (map Account.id accs) ->
      (forall x, In x (accounts (settle e accs p))
                 <-> find_account accs (debit_account p) = Some x
                     \/ find_account accs (credit_account p) = Some x)
      /\ (length (accounts (settle e accs p)) <= 1)%nat).
Proof.
  intros Hp Hmiss.
  set (keep := fun a => String.eqb (Account.id a) (debit_account p)
                        || String.eqb (Account.id a) (credit_account p)).
  assert (Hs : settle e accs p
               = with_parsed p "failed" (ReasonMsg PM.ACCOUNT_NOT_FOUND)
                   (CodeKey SC.ACCOUNT_NOT_FOUND) (filter keep accs)).
  { unfold settle. rewrite Hp.
    replace (filter (fun a => includes [debit_account p; credit_account p]
                                (Some (Account.id a))) accs)
      with (filter keep accs)
      by (apply filter_ext; intros a; unfold keep, includes; cbn;
          rewrite orb_false_r; reflexivity).
    destruct Hmiss as [H | H]; rewrite H;
      [reflexivity | destruct (find_account accs (debit_account p)); reflexivity]. }
  rewrite Hs. cbn [status status_reason status_code accounts with_parsed].
  split; [reflexivity | split; [reflexivity | split; [reflexivity | split; [reflexivity |]]]].
  intros Hnd. split.
  - intros x. rewrite filter_In. unfold keep. split.
    + intros [Hin Hk]. apply orb_true_iff in Hk as [Hk | Hk];
        apply String.eqb_eq in Hk; [left | right]; rewrite <- Hk;
        apply find_account_nodup; assumption.
    + intros [H | H]; apply find_account_some in H as [Hin Hk];
        split; try exact Hin; rewrite Hk, String.eqb_refl; [reflexivity |].
      apply orb_true_r.
  - apply nodup_map_filter with (f := keep) in Hnd.
    destruct Hmiss as [H | H];
      [apply (nodup_same_id _ (credit_account p) Hnd)
      | apply (nodup_same_id _ (debit_account p) Hnd)];
      intros x Hx; apply filter_In in Hx as [Hin Hk]; unfold keep in Hk;
      apply orb_true_iff in Hk as [Hk | Hk]; apply String.eqb_eq in Hk;
      try exact Hk; exfalso; exact (find_account_none _ _ _ H Hin Hk).
Qed.

(** C7 at [A1 -> A2] with only [A1] supplied. *)
Lemma settle_account_not_found_witness :
  status (settle lagos_env [Account.mk "A1" 200 "USD" None]
            (mkParsed "DEBIT" 100 "USD" "A1" "A2" None)) = "failed"
  /\ accounts (settle lagos_env [Account.mk "A1" 200 "USD" None]
                 (mkParsed "DEBIT" 100 "USD" "A1" "A2" None))
     = [Account.mk "A1" 200 "USD" None].
Proof.
  destruct (settle_account_not_found lagos_env [Account.mk "A1" 200 "USD" None]
              (mkParsed "DEBIT" 100 "USD" "A1" "A2" None)
              ltac:(vm_compute; reflexivity) ltac:(right; vm_compute; reflexivity))
    as [Hst [_ [_ [Hacc _]]]].
  split; [exact Hst | rewrite Hacc; vm_compute; reflexivity].
Defined.

(** C7 fails as stated when an identifier is supplied several times: all
    three records with id [A1] are listed, not 0, 1 or 2 found accounts. *)
Lemma settle_account_not_found_counterexample :
  match handlePaymentInstruction unit
          (request [Account.mk "A1" 200 "USD" None; Account.mk "A1" 300 "USD" None;
                    Account.mk "A1" 400 "USD" None]
             "DEBIT 100 USD FROM ACCOUNT A1 TO ACCOUNT A2")
          lagos_env tt with
  | Ret o => status_code o = CodeKey SC.ACCOUNT_NOT_FOUND /\ length (accounts o) = 3%nat
  | Throw _ => False
  end.
Proof. vm_compute. split; reflexivity. Qed.

(** ** C9 and C10: the handler with and without validation errors *)

Lemma settle_status (e : env) (accs : list Account.t) (p : parsed) :
  status (settle e accs p) = "pending" \/ status (settle e accs p) = "failed"
  \/ status (settle e accs p) = "successful".
Proof.
  unfold settle. destruct (is_pending e p); [left; reflexivity |].
  destruct (find_account accs (debit_account p));
  destruct (find_account accs (credit_account p)); try (right; left; reflexivity).
  destruct (_ || _); [right; left; reflexivity |].
  destruct (Q_ltb _ _); [right; left | right; right]; reflexivity.
Qed.

(** C9. When the validator accepts the body, [handlePaymentInstruction]
    returns an outcome and does not throw; its status is pending, failed
    or successful; and a parser error, whatever it is, is turned into a
    failed outcome carrying its message. *)
Theorem handlePaymentInstruction_returns (body : Type)
  (validate : body -> validation_result) (e : env) (b : body)
  (accs : option (list Account.t)) (instr : option string) :
  validate b = VOk accs instr ->
  (exists o, handlePaymentInstruction body validate e b = Ret o
             /\ (status o = "pending" \/ status o = "failed" \/ status o = "successful"))
  /\ (forall a i err,
      accs = Some a -> instr = Some i -> i <> "" ->
      HandleInstruction.parseInstruction i = Throw err ->
      handlePaymentInstruction body validate e b = Ret (parse_error_outcome err)
      /\ status (parse_error_outcome err) = "failed").
Proof.
  intros Hv. unfold handlePaymentInstruction. rewrite Hv. split.
  - destruct accs as [a |]; [destruct instr as [i |] |];
      try (eexists; split; [reflexivity | right; left; reflexivity]).
    destruct (String.eqb i ""); [eexists; split; [reflexivity | right; left; reflexivity] |].
    destruct (HandleInstruction.parseInstruction i) as [p | err].
    + eexists; split; [reflexivity | apply settle_status].
    + eexists; split; [reflexivity | right; left; reflexivity].
  - intros a i err -> -> Hi Herr.
    destruct (String.eqb_spec i ""); [contradiction |].
    rewrite Herr. split; reflexivity.
Qed.

(** C9 at the spec's example body. *)
Lemma handlePaymentInstruction_returns_witness :
  exists o, handlePaymentInstruction unit
              (request (two_accounts 200) "DEBIT 100 USD FROM ACCOUNT A1 TO ACCOUNT A2")
              lagos_env tt = Ret o
            /\ (status o = "pending" \/ status o = "failed" \/ status o = "successful").
Proof.
  exact (proj1 (handlePaymentInstruction_returns unit
                  (request (two_accounts 200) "DEBIT 100 USD FROM ACCOUNT A1 TO ACCOUNT A2")
                  lagos_env tt (Some (two_accounts 200))
                  (Some "DEBIT 100 USD FROM ACCOUNT A1 TO ACCOUNT A2") eq_refl)).
Defined.

(** C10. When the validator reports errors, [mapValidationErrors] gives
    the first message (a string), and calling [join] on it throws a
    TypeError: neither a classified error nor an outcome comes back. *)
Theorem handlePaymentInstruction_validation_error (body : Type)
  (validate : body -> validation_result) (e : env) (b : body)
  (errors : list string) :
  validate b = VErrors errors -> errors <> [] ->
  mapValidationErrors errors = Some (hd "" errors)
  /\ handlePaymentInstruction body validate e b
     = Throw (TypeError "readable.join is not a function").
Proof.
  intros Hv Hne. destruct errors as [| m ms]; [contradiction |].
  unfold handlePaymentInstruction. rewrite Hv. split; reflexivity.
Qed.

(** C10 at a body the validator rejects. *)
Lemma handlePaymentInstruction_validation_error_witness :
  handlePaymentInstruction unit (fun _ => VErrors ["accounts is required"]) lagos_env tt
  = Throw (TypeError "readable.join is not a function").
Proof.
  exact (proj2 (handlePaymentInstruction_validation_error unit
                  (fun _ => VErrors ["accounts is required"]) lagos_env tt
                  ["accounts is required"] eq_refl ltac:(discriminate))).
Defined.

(* ================================================================== *)
(** * Further properties of the code *)

(** ** The three parser variants *)

Lemma parse_head_ok (w uw : list string) (t : string) (a : Q) (c : string) :
  parse_head w uw = Ret (t, a, c) ->
  (t = "DEBIT" \/ t = "CREDIT") /\ (0 < a)%Q /\ Q_is_integer a = true
  /\ In c ["USD"; "NGN"; "GBP"; "GHS"].
Proof.
  intros H. split; [exact (parse_head_type _ _ _ _ _ H) |].
  unfold parse_head in H.
  destruct (nth_error uw 0) as [t0 |]; [| discriminate].
  destruct (negb (includes ["DEBIT"; "CREDIT"] (Some t0))); [discriminate |].
  destruct (Number (nth_error w 1)) as [| | | q]; try discriminate.
  destruct (Qle_bool q 0) eqn:Hle; [discriminate |].
  destruct (Q_is_integer q) eqn:Hint; [| discriminate].
  cbn [negb orb] in H.
  destruct (nth_error uw 2) as [c0 |]; [| discriminate].
  destruct (includes ["USD"; "NGN"; "GBP"; "GHS"] (Some c0)) eqn:Hc; cbn [negb] in H;
    [| discriminate].
  injection H as <- <- <-.
  split; [| split; [exact Hint |]].
  - apply Qnot_le_lt. intros Hq. apply Qle_bool_iff in Hq. congruence.
  - unfold includes in Hc. apply existsb_exists in Hc as [x [Hx Ex]].
    apply String.eqb_eq in Ex. subst x. exact Hx.
Qed.

Lemma parse_on_date_ok (w uw : list string) (t : string) :
  parse_on_date w uw = Ret (Some t) -> date_rejected t = false.
Proof.
  unfold parse_on_date.
  destruct (indexOf uw "ON" =? -1); [discriminate |].
  destruct (at_idx w (indexOf uw "ON" + 1)) as [d |]; [| discriminate].
  destruct (date_rejected d) eqn:E; [discriminate |].
  intros H; injection H as <-; exact E.
Qed.

Lemma account_after_handler (w uw : list string) (idx : Z) (a : string) :
  Part001.account_after w uw idx = Some a ->
  (if negb (idx =? -1) then at_idx w (idx + 2) else None) = Some a.
Proof.
  unfold Part001.account_after.
  destruct (negb (idx =? -1)); [| discriminate].
  destruct (_ && _ && _); [exact (fun H => H) | discriminate].
Qed.

(** Every instruction the parser of [helpers/parse-instruction.js] accepts
    is accepted, with the same result, by the parser
    [handlePaymentInstruction] uses. *)
Theorem Helpers_refines_HandleInstruction (instruction : string) (p : parsed) :
  Helpers.parseInstruction instruction = Ret p ->
  HandleInstruction.parseInstruction instruction = Ret p.
Proof.
  unfold Helpers.parseInstruction, HandleInstruction.parseInstruction.
  fold (upperWords instruction).
  destruct (parse_head (words instruction) (upperWords instruction))
    as [[[t a] c] | e]; [| discriminate].
  cbn [tbind].
  destruct (Part001.account_after (words instruction) (upperWords instruction)
              (indexOf (upperWords instruction) "FROM")) as [f |] eqn:Ef;
  destruct (Part001.account_after (words instruction) (upperWords instruction)
              (indexOf (upperWords instruction) "TO")) as [g |] eqn:Eg;
    intros H; cbn [truthy_str negb orb] in H; try discriminate H;
    try (destruct (negb (negb _)); discriminate H).
  rewrite (account_after_handler _ _ _ _ Ef), (account_after_handler _ _ _ _ Eg).
  exact H.
Qed.

(** Helpers_refines_HandleInstruction at a DEBIT instruction with an ON date. *)
Lemma Helpers_refines_HandleInstruction_witness :
  HandleInstruction.parseInstruction "DEBIT 100 USD FROM ACCOUNT A1 TO ACCOUNT A2 ON 2024-02-29"
  = Ret (mkParsed "DEBIT" 100 "USD" "A1" "A2" (Some "2024-02-29")).
Proof.
  apply Helpers_refines_HandleInstruction. vm_compute. reflexivity.
Defined.

(** Every instruction [part_001]'s parser accepts is accepted, with the
    same result, by the parser of [helpers/parse-instruction.js]. *)
Theorem Part001_refines_Helpers (instruction : string) (p : parsed) :
  Part001.parseInstruction instruction = Ret p ->
  Helpers.parseInstruction instruction = Ret p.
Proof.
  unfold Part001.parseInstruction, Helpers.parseInstruction.
  fold (upperWords instruction).
  destruct (parse_head (words instruction) (upperWords instruction))
    as [[[t a] c] | e]; [| discriminate].
  cbn [tbind].
  destruct (Part001.order_rejected _ _ _); [discriminate |].
  destruct (Part001.account_after (words instruction) (upperWords instruction)
              (indexOf (upperWords instruction) "FROM")) as [f |] eqn:Ef;
  destruct (Part001.account_after (words instruction) (upperWords instruction)
              (indexOf (upperWords instruction) "TO")) as [g |] eqn:Eg;
    intros H; cbn [truthy_str negb andb orb] in H |- *; try discriminate H;
    try (repeat match type of H with context [if ?b then _ else _] => destruct b end;
         discriminate H).
  destruct (Part001.isValidAccount f), (Part001.isValidAccount g);
    destruct (f =? "")%string, (g =? "")%string;
    cbn [negb andb orb] in H |- *; try discriminate H; exact H.
Qed.

(** Part001_refines_Helpers at a CREDIT instruction. *)
Lemma Part001_refines_Helpers_witness :
  Helpers.parseInstruction "CREDIT 100 USD TO ACCOUNT A2 FROM ACCOUNT A1"
  = Ret (mkParsed "CREDIT" 100 "USD" "A1" "A2" None).
Proof.
  apply Part001_refines_Helpers. vm_compute. reflexivity.
Defined.

(** ** Tokenisation *)

Lemma tokens_aux_word (x rest : string) (cur : list ascii) :
  blank_free x = true ->
  tokens_aux (x ++ rest) cur = tokens_aux rest (app (rev (list_ascii_of_string x)) cur).
Proof.
  revert cur. induction x as [| a x IH]; intros cur Hx; [reflexivity |].
  unfold blank_free in Hx. cbn [list_ascii_of_string forallb] in Hx.
  apply andb_prop in Hx as [Ha Hx].
  cbn [append tokens_aux]. apply negb_true_iff in Ha. rewrite Ha.
  rewrite (IH (a :: cur) Hx). cbn [list_ascii_of_string rev].
  rewrite <- app_assoc. reflexivity.
Qed.

Lemma tokens_aux_end (cur : list ascii) :
  cur <> [] -> tokens_aux "" cur = [string_of_list_ascii (rev cur)].
Proof. destruct cur; [contradiction | reflexivity]. Qed.

Lemma rev_chars_nonempty (x : string) :
  x <> "" -> app (rev (list_ascii_of_string x)) [] <> [].
Proof.
  intros Hx. rewrite app_nil_r. destruct x as [| a x]; [contradiction |].
  cbn [list_ascii_of_string rev]. destruct (rev (list_ascii_of_string x)); discriminate.
Qed.

Lemma string_app_empty (x : string) : (x ++ "")%string = x.
Proof. induction x as [| a x IH]; [reflexivity | cbn; rewrite IH; reflexivity]. Qed.

Lemma tokens_aux_concat (l : list string) :
  l <> [] -> Forall (fun x => x <> "" /\ blank_free x = true) l ->
  tokens_aux (String.concat " " l) [] = l.
Proof.
  induction l as [| x l IH]; intros Hne Hl; [contradiction |].
  inversion Hl as [| ? ? [Hx Hbx] Hl']; subst.
  destruct l as [| y l].
  - cbn [String.concat]. rewrite <- (string_app_empty x) at 1.
    rewrite (tokens_aux_word x "" [] Hbx), (tokens_aux_end _ (rev_chars_nonempty x Hx)).
    rewrite app_nil_r, rev_involutive, string_of_list_ascii_of_string. reflexivity.
  - change (String.concat " " (x :: y :: l))
      with (x ++ String " " (String.concat " " (y :: l)))%string.
    rewrite (tokens_aux_word x _ [] Hbx).
    pose proof (rev_chars_nonempty x Hx) as Hr. rewrite app_nil_r in Hr |- *.
    cbn [tokens_aux is_js_space existsb nat_of_ascii Nat.eqb orb BinNat.N.to_nat
         N_of_ascii N_of_digits].
    destruct (rev (list_ascii_of_string x)) as [| a r] eqn:Er; [contradiction |].
    rewrite <- Er, rev_involutive, string_of_list_ascii_of_string.
    rewrite (IH ltac:(discriminate) Hl'). reflexivity.
Qed.

Lemma tokens_aux_good (s : string) (cur : list ascii) :
  Forall (fun c => is_js_space c = false) cur ->
  Forall (fun x => x <> "" /\ blank_free x = true) (tokens_aux s cur).
Proof.
  assert (Hgood : forall cur, cur <> [] -> Forall (fun c => is_js_space c = false) cur ->
            string_of_list_ascii (rev cur) <> "" /\
            blank_free (string_of_list_ascii (rev cur)) = true).
  { intros c0 Hne Hc. split.
    - intros E. apply (f_equal list_ascii_of_string) in E.
      rewrite list_ascii_of_string_of_list_ascii in E.
      apply Hne. destruct c0 as [| a c0]; [reflexivity |].
      cbn [rev] in E. destruct (rev c0); discriminate.
    - unfold blank_free. rewrite list_ascii_of_string_of_list_ascii.
      apply forallb_forall. intros a Ha. apply in_rev in Ha.
      rewrite Forall_forall in Hc. rewrite (Hc a Ha). reflexivity. }
  revert cur. induction s as [| a s IH]; intros cur Hc.
  - destruct cur as [| b cur]; [constructor |].
    constructor; [apply Hgood; [discriminate | exact Hc] | constructor].
  - cbn [tokens_aux]. destruct (is_js_space a) eqn:Ha.
    + destruct cur as [| b cur]; [apply IH; constructor |].
      constructor; [apply Hgood; [discriminate | exact Hc] | apply IH; constructor].
    + apply IH. constructor; assumption.
Qed.

(** The words of an instruction ([trim().split(/\s+/)]): a blank
    instruction gives the single empty word; otherwise every word is
    nonempty and holds no white space. *)
Theorem words_tokens (instruction : string) :
  words instruction = [""]
  \/ Forall (fun x => x <> "" /\ blank_free x = true) (words instruction).
Proof.
  unfold words. pose proof (tokens_aux_good instruction [] (Forall_nil _)) as H.
  destruct (tokens_aux instruction []); [left; reflexivity | right; exact H].
Qed.

(** Joining nonempty, blank-free words with single spaces and splitting
    the result gives the words back. *)
Theorem words_concat (l : list string) :
  l <> [] -> Forall (fun x => x <> "" /\ blank_free x = true) l ->
  words (String.concat " " l) = l.
Proof.
  intros Hne Hl. unfold words. rewrite (tokens_aux_concat l Hne Hl).
  destruct l; [contradiction | reflexivity].
Qed.

(** words_concat at the words of a payment instruction. *)
Lemma words_concat_witness :
  words (String.concat " " ["DEBIT"; "100"; "USD"; "FROM"; "ACCOUNT"; "A1"])
  = ["DEBIT"; "100"; "USD"; "FROM"; "ACCOUNT"; "A1"].
Proof.
  apply words_concat; [discriminate |].
  repeat constructor; try discriminate.
Defined.

Lemma words_rejoin (instruction : string) :
  words (String.concat " " (words instruction)) = words instruction.
Proof.
  destruct (words_tokens instruction) as [E | H].
  - rewrite E. reflexivity.
  - apply words_concat; [| exact H].
    unfold words. destruct (tokens_aux instruction []); discriminate.
Qed.

(** The three parsers read an instruction only through its words: an
    instruction and its words joined by single spaces (white space runs
    collapsed, leading and trailing blanks dropped) parse alike. *)
Theorem parse_whitespace_insensitive (instruction : string) :
  let normal := String.concat " " (words instruction) in
  HandleInstruction.parseInstruction normal = HandleInstruction.parseInstruction instruction
  /\ Helpers.parseInstruction normal = Helpers.parseInstruction instruction
  /\ Part001.parseInstruction normal = Part001.parseInstruction instruction.
Proof.
  cbv zeta.
  unfold HandleInstruction.parseInstruction, Helpers.parseInstruction,
    Part001.parseInstruction.
  rewrite !words_rejoin. repeat split.
Qed.

(** ** What a successful parse guarantees *)



(** In a successful parse by the parser of [helpers/parse-instruction.js]
    the word after the first FROM and after the first TO is ACCOUNT (in
    any case), and the accounts are the words after it. *)
Theorem Helpers_account_keyword (instruction : string) (p : parsed) :
  Helpers.parseInstruction instruction = Ret p ->
  at_idx (upperWords instruction) (indexOf (upperWords instruction) "FROM" + 1)
    = Some "ACCOUNT"
  /\ at_idx (upperWords instruction) (indexOf (upperWords instruction) "TO" + 1)
    = Some "ACCOUNT"
  /\ Part001.account_after (words instruction) (upperWords instruction)
       (indexOf (upperWords instruction) "FROM") = Some (debit_account p)
  /\ Part001.account_after (words instruction) (upperWords instruction)
       (indexOf (upperWords instruction) "TO") = Some (credit_account p).
Proof.
  assert (Hkw : forall w uw idx a, Part001.account_after w uw idx = Some a ->
            at_idx uw (idx + 1) = Some "ACCOUNT").
  { intros w uw idx a. unfold Part001.account_after.
    destruct (negb (idx =? -1)); [| discriminate].
    destruct (at_idx uw (idx + 1)) as [u |]; [| rewrite !andb_false_r; discriminate].
    destruct (String.eqb_spec u "ACCOUNT") as [-> | _];
      [reflexivity | rewrite andb_false_r; discriminate]. }
  unfold Helpers.parseInstruction. fold (upperWords instruction).
  destruct (parse_head (words instruction) (upperWords instruction))
    as [[[t a] c] | e]; [| discriminate].
  cbn [tbind].
  destruct (Part001.account_after (words instruction) (upperWords instruction)
              (indexOf (upperWords instruction) "FROM")) as [f |] eqn:Ef;
  destruct (Part001.account_after (words instruction) (upperWords instruction)
              (indexOf (upperWords instruction) "TO")) as [g |] eqn:Eg;
    intros H; cbn [truthy_str negb orb] in H; try discriminate H;
    try (destruct (negb (negb _)); discriminate H).
  destruct (_ || _); [discriminate H |].
  destruct (String.eqb f g); [discriminate H |].
  destruct (parse_on_date _ _); [| discriminate H].
  cbn [tbind] in H. injection H as <-.
  exact (conj (Hkw _ _ _ _ Ef) (conj (Hkw _ _ _ _ Eg) (conj eq_refl eq_refl))).
Qed.

(** Helpers_account_keyword at a CREDIT instruction. *)
Lemma Helpers_account_keyword_witness :
  at_idx (upperWords "credit 5 ngn to account b2 from account b1")
    (indexOf (upperWords "credit 5 ngn to account b2 from account b1") "FROM" + 1)
  = Some "ACCOUNT".
Proof.
  exact (proj1 (Helpers_account_keyword "credit 5 ngn to account b2 from account b1"
    (mkParsed "CREDIT" 5 "NGN" "b1" "b2" None) ltac:(vm_compute; reflexivity))).
Defined.

Lemma words_nonempty (instruction : string) : words instruction <> [].
Proof. unfold words. destruct (tokens_aux instruction []); discriminate. Qed.

Lemma parse_on_date_last (w : list string) :
  w <> [] ->
  indexOf (map toUpperCase w) "ON" = Z.of_nat (length w) - 1 ->
  parse_on_date w (map toUpperCase w)
  = Throw (TypeError "Cannot read properties of undefined (reading 'split')").
Proof.
  intros Hw Hon. unfold parse_on_date. rewrite Hon.
  destruct w as [| x w]; [contradiction |].
  cbn [length].
  replace (Z.of_nat (S (length w)) - 1 =? -1) with false
    by (symmetry; apply Z.eqb_neq; lia).
  unfold at_idx.
  replace (Z.of_nat (S (length w)) - 1 + 1 <? 0) with false
    by (symmetry; apply Z.ltb_ge; lia).
  replace (Z.to_nat (Z.of_nat (S (length w)) - 1 + 1)) with (length (x :: w)) by
    (cbn [length]; lia).
  rewrite (proj2 (nth_error_None _ _) (le_n _)). reflexivity.
Qed.

(** When the first ON of an instruction is its last word, the parser
    [handlePaymentInstruction] uses never succeeds: reaching the date step
    reads [words[onIdx + 1]], which is undefined, and [.split] throws. *)
Theorem HandleInstruction_on_last (instruction : string) (p : parsed) :
  indexOf (upperWords instruction) "ON" = Z.of_nat (length (words instruction)) - 1 ->
  HandleInstruction.parseInstruction instruction <> Ret p.
Proof.
  intros Hon. unfold upperWords in Hon.
  pose proof (parse_on_date_last _ (words_nonempty instruction) Hon) as Hd.
  unfold HandleInstruction.parseInstruction. rewrite Hd.
  destruct (parse_head _ _) as [[[t a] c] |]; [| discriminate].
  cbn [tbind].
  destruct (if negb _ then at_idx _ _ else None) as [f |];
  destruct (if negb _ then at_idx _ _ else None) as [g |];
    cbn [truthy_str negb orb]; try discriminate;
    try (destruct (negb (negb _)); discriminate).
  destruct (_ || _); [discriminate |].
  destruct (String.eqb f g); discriminate.
Qed.

(** HandleInstruction_on_last at an instruction ending in ON. *)
Lemma HandleInstruction_on_last_witness :
  HandleInstruction.parseInstruction "DEBIT 100 USD FROM ACCOUNT A1 TO ACCOUNT A2 ON"
  <> Ret (mkParsed "DEBIT" 100 "USD" "A1" "A2" None).
Proof.
  apply HandleInstruction_on_last. vm_compute. reflexivity.
Defined.

(** ** Settlement *)



(** An instruction that is not pending, whose two accounts are found, and
    one of whose accounts has a currency that, upper-cased, differs from
    the instruction's, fails with CURRENCY_MISMATCH and lists both
    records unchanged, whatever the balances. *)
Theorem settle_currency_mismatch (e : env) (accs : list Account.t) (p : parsed)
  (d c : Account.t) :
  is_pending e p = false ->
  find_account accs (debit_account p) = Some d ->
  find_account accs (credit_account p) = Some c ->
  toUpperCase (Account.currency d) <> currency p
  \/ toUpperCase (Account.currency c) <> currency p ->
  settle e accs p
  = with_parsed p "failed" (ReasonMsg PM.CURRENCY_MISMATCH)
      (CodeKey SC.CURRENCY_MISMATCH) [d; c].
Proof.
  intros Hp Hd Hc Hcur. unfold settle. rewrite Hp, Hd, Hc.
  replace (negb (String.eqb (toUpperCase (Account.currency d)) (currency p))
           || negb (String.eqb (toUpperCase (Account.currency c)) (currency p)))
    with true; [reflexivity |].
  destruct Hcur as [H | H].
  - destruct (String.eqb_spec (toUpperCase (Account.currency d)) (currency p));
      [contradiction | reflexivity].
  - destruct (String.eqb_spec (toUpperCase (Account.currency c)) (currency p));
      [contradiction | rewrite orb_true_r; reflexivity].
Qed.

(** settle_currency_mismatch with a GBP credit account and a USD instruction. *)
Lemma settle_currency_mismatch_witness :
  settle lagos_env [Account.mk "A1" 500 "usd" None; Account.mk "A2" 0 "GBP" None]
    (mkParsed "DEBIT" 100 "USD" "A1" "A2" None)
  = with_parsed (mkParsed "DEBIT" 100 "USD" "A1" "A2" None) "failed"
      (ReasonMsg PM.CURRENCY_MISMATCH) (CodeKey SC.CURRENCY_MISMATCH)
      [Account.mk "A1" 500 "usd" None; Account.mk "A2" 0 "GBP" None].
Proof.
  apply settle_currency_mismatch; try (vm_compute; reflexivity).
  right. vm_compute. discriminate.
Defined.

(** For a date-only execution date and a time zone less than a day away
    from UTC: a date before the local calendar day is never pending, a
    date after it (within the [Date] range) always is, and a date out of
    the [Date] range is never pending. *)
Theorem is_pending_date_only (e : env) (p : parsed) (s : string) (y m d : Z) :
  - msPerDay < tz_offset e <= msPerDay ->
  executeBy p = Some s ->
  iso_date_only s = Some (y, m, d) ->
  (days_from_civil y m d < (now e + tz_offset e) / msPerDay -> is_pending e p = false)
  /\ ((now e + tz_offset e) / msPerDay < days_from_civil y m d ->
      Z.abs (days_from_civil y m d * msPerDay) <= 8640000000000000 ->
      is_pending e p = true)
  /\ (8640000000000000 < Z.abs (days_from_civil y m d * msPerDay) ->
      is_pending e p = false).
Proof.
  intros Hoff Hex Hiso.
  assert (Hs : s <> "") by (intros ->; discriminate Hiso).
  unfold is_pending, new_Date. rewrite Hex, (truthy_nonempty s Hs), Hiso.
  pose proof (Z.div_mod (now e + tz_offset e) msPerDay ltac:(discriminate)) as Hdm.
  pose proof (Z.mod_pos_bound (now e + tz_offset e) msPerDay ltac:(reflexivity)) as Hb.
  unfold today_ms. unfold msPerDay in *.
  set (L := (now e + tz_offset e) / 86400000) in *.
  set (D := days_from_civil y m d) in *.
  repeat split.
  - intros HD. destruct (Z.abs (D * 86400000) >? 8640000000000000); [reflexivity |].
    rewrite Z.gtb_ltb. apply Z.ltb_ge. nia.
  - intros HD Hclip.
    replace (Z.abs (D * 86400000) >? 8640000000000000) with false
      by (symmetry; rewrite Z.gtb_ltb; apply Z.ltb_ge; lia).
    rewrite Z.gtb_ltb. apply Z.ltb_lt. nia.
  - intros Hbig.
    replace (Z.abs (D * 86400000) >? 8640000000000000) with true
      by (symmetry; rewrite Z.gtb_ltb; apply Z.ltb_lt; lia).
    reflexivity.
Qed.

(** is_pending_date_only for the day before the Lagos host's local day. *)
Lemma is_pending_date_only_witness :
  is_pending lagos_env (mkParsed "DEBIT" 100 "USD" "A1" "A2" (Some "2026-10-13")) = false.
Proof.
  exact (proj1 (is_pending_date_only lagos_env
    (mkParsed "DEBIT" 100 "USD" "A1" "A2" (Some "2026-10-13")) "2026-10-13" 2026 10 13
    ltac:(unfold msPerDay; cbn; lia) eq_refl ltac:(vm_compute; reflexivity))
    ltac:(vm_compute; reflexivity)).
Defined.

(** ** The handler and the route *)

(** A validated body without accounts, without an instruction, or with an
    empty instruction gets the SY03 sanity outcome: failed, null fields,
    no accounts. *)
Theorem handlePaymentInstruction_sanity (body : Type)
  (validate : body -> validation_result) (e : env) (b : body)
  (accs : option (list Account.t)) (instr : option string) :
  validate b = VOk accs instr ->
  accs = None \/ instr = None \/ instr = Some "" ->
  handlePaymentInstruction body validate e b = Ret sanity_outcome.
Proof.
  intros Hv Hmiss. unfold handlePaymentInstruction. rewrite Hv.
  destruct Hmiss as [-> | [-> | ->]].
  - reflexivity.
  - destruct accs; reflexivity.
  - destruct accs; reflexivity.
Qed.

(** handlePaymentInstruction_sanity at an empty instruction. *)
Lemma handlePaymentInstruction_sanity_witness :
  handlePaymentInstruction unit (request (two_accounts 200) "") lagos_env tt
  = Ret sanity_outcome.
Proof.
  exact (handlePaymentInstruction_sanity unit (request (two_accounts 200) "") lagos_env tt
           (Some (two_accounts 200)) (Some "") eq_refl (or_intror (or_intror eq_refl))).
Defined.

